(** * PolyJacket: the game-record extractor of [main.py]

    A shallow embedding of the HTML-to-record extraction
    ([parse_games_html_with_dates], [parse_games_html]) and of the day
    aggregator ([fetch_all_games], [fetch_games_for_specific_date]),
    followed by the properties the specification states about them.

    Conventions of the embedding.
    - A Python [str] is a [string]; its characters are read as the code
      points 0..255 (Latin-1), on which [str.strip], [str.lower] and
      [str.isdigit] are the functions of module [Str].
    - The tree that [BeautifulSoup(html_content, 'html.parser')] builds is a
      [node].  The parser lower-cases tag and attribute names and splits the
      [class] attribute into its tokens, so a CSS selector is matched by
      plain equality on names.  [parse_games_html_with_dates] and
      [parse_games_html] are what the two functions do once the tree is
      built; the parser is a library, and the functions as they start from
      the markup, with a parser that may reject it, are
      [parse_games_html_with_dates_of_markup] and
      [parse_games_html_of_markup].
    - [print] appends a line to an explicit standard output; the local list
      [games] is threaded through the loops as the code does.
    - The awaits of the aggregator run one after the other; a calendar day
      is its ordinal, so that adding [timedelta(days=1)] is adding 1. *)

From Stdlib Require Import String Ascii List Bool Arith ZArith Lia DecimalString Sorted.
From Equations Require Import Equations.
Import ListNotations.
Open Scope string_scope.

(* ===================================================================== *)
(** ** Python string methods used by the extractor *)
(* ===================================================================== *)

Module Str.

Definition code (c : ascii) : nat := nat_of_ascii c.

Definition between (lo hi n : nat) : bool := ((lo <=? n) && (n <=? hi))%nat.

(** [str.isspace] on one character: TAB..CR, FS..US and space, NEL, NBSP. *)
Definition isspace (c : ascii) : bool :=
  let n := code c in
  between 9 13 n || between 28 32 n || (n =? 133)%nat || (n =? 160)%nat.

(** A character [str.isdigit] accepts: 0..9 and the superscripts 1, 2, 3. *)
Definition isdigit_char (c : ascii) : bool :=
  let n := code c in
  between 48 57 n || (n =? 178)%nat || (n =? 179)%nat || (n =? 185)%nat.

Definition lower_char (c : ascii) : ascii :=
  let n := code c in
  if between 65 90 n || (between 192 222 n && negb (n =? 215)%nat)
  then ascii_of_nat (n + 32) else c.

Fixpoint lstrip (s : string) : string :=
  match s with
  | EmptyString => EmptyString
  | String c r => if isspace c then lstrip r else s
  end.

Fixpoint rstrip (s : string) : string :=
  match s with
  | EmptyString => EmptyString
  | String c r =>
      match rstrip r with
      | EmptyString => if isspace c then EmptyString else String c EmptyString
      | r' => String c r'
      end
  end.

(** [s.strip()] *)
Definition strip (s : string) : string := rstrip (lstrip s).

(** [s.lower()] *)
Fixpoint lower (s : string) : string :=
  match s with
  | EmptyString => EmptyString
  | String c r => String (lower_char c) (lower r)
  end.

Fixpoint all_chars (p : ascii -> bool) (s : string) : bool :=
  match s with
  | EmptyString => true
  | String c r => p c && all_chars p r
  end.

(** [s.isdigit()]: at least one character, and every character a digit. *)
Definition isdigit (s : string) : bool :=
  match s with
  | EmptyString => false
  | _ => all_chars isdigit_char s
  end.

(** [needle in hay] *)
Fixpoint contains (needle hay : string) : bool :=
  String.prefix needle hay ||
  match hay with
  | EmptyString => false
  | String _ r => contains needle r
  end.

(** [s.lstrip("0")] *)
Fixpoint lstrip_zero (s : string) : string :=
  match s with
  | String "0"%char r => lstrip_zero r
  | _ => s
  end.

(** [s.replace(old, new)] for a non-empty [old]: left to right, without
    overlap.  [skip] counts the characters of a matched [old] still to be
    dropped. *)
Fixpoint replace_from (old new s : string) (skip : nat) : string :=
  match s with
  | EmptyString => EmptyString
  | String c r =>
      match skip with
      | S k => replace_from old new r k
      | O =>
          if String.prefix old s
          then new ++ replace_from old new r (String.length old - 1)
          else String c (replace_from old new r 0)
      end
  end.

Definition replace (old new s : string) : string := replace_from old new s 0.

(** [str(n)] for a length. *)
Definition of_nat (n : nat) : string := NilEmpty.string_of_uint (Nat.to_uint n).

End Str.

(* ===================================================================== *)
(** ** The document tree and its queries *)
(* ===================================================================== *)

(** A page element: a text node ([NavigableString], [CData]), any other
    string-like node ([Comment], [Doctype], ...) that [get_text] always
    leaves out, a string of the class the parser gives to the text inside a
    [script], [style], [template], [rt] or [rp] element ([Script],
    [Stylesheet], ...; [container] is the name of that element), or a tag.
    [classes] is [tag.get('class', [])]; [attrs] holds the other
    attributes. *)
#[local] Set Warnings "-register-all".
Inductive node : Type :=
| NavigableString (s : string)
| Comment (s : string)
| ContainerString (container : string) (s : string)
| Tag (name : string) (classes : list string)
      (attrs : list (string * string)) (contents : list node).

(** [tag.descendants]: every element below the node, in document order. *)
Fixpoint descendants (n : node) : list node :=
  match n with
  | Tag _ _ _ kids => flat_map (fun k => k :: descendants k) kids
  | _ => []
  end.

Fixpoint lookup (k : string) (d : list (string * string)) : option string :=
  match d with
  | [] => None
  | (k', v) :: r => if String.eqb k k' then Some v else lookup k r
  end.

Definition tag_classes (n : node) : list string :=
  match n with
  | Tag _ cs _ _ => cs
  | _ => []
  end.

(** [tag.get(key)] *)
Definition get (n : node) (key : string) : option string :=
  match n with
  | Tag _ _ a _ => lookup key a
  | _ => None
  end.

(** [tag.get(key, default)] *)
Definition get_default (n : node) (key default : string) : string :=
  match get n key with
  | Some v => v
  | None => default
  end.

Definition mem (x : string) (l : list string) : bool := existsb (String.eqb x) l.

(** The CSS selectors the program uses. *)
Inductive simple_selector : Type :=
| sel_type (name : string)                 (* div *)
| sel_class (c : string)                   (* .match *)
| sel_id (i : string)                      (* #pNowDate *)
| sel_has_attr (a : string)                (* [gameday] *)
| sel_attr_contains (a v : string).        (* [href*="/sport/"] *)

(** A compound selector ([div.match]) and a comma-separated selector list. *)
Definition compound := list simple_selector.
Definition selector := list compound.

Definition matches_simple (n : node) (s : simple_selector) : bool :=
  match n with
  | Tag name cs a _ =>
      match s with
      | sel_type t => String.eqb name t
      | sel_class c => mem c cs
      | sel_id i => match lookup "id" a with
                    | Some v => String.eqb v i
                    | None => false
                    end
      | sel_has_attr k => match lookup k a with
                          | Some _ => true
                          | None => false
                          end
      | sel_attr_contains k v => match lookup k a with
                                 | Some x => Str.contains v x
                                 | None => false
                                 end
      end
  | _ => false
  end.

Definition is_tag (n : node) : bool :=
  match n with
  | Tag _ _ _ _ => true
  | _ => false
  end.

Definition matches (sel : selector) (n : node) : bool :=
  is_tag n && existsb (fun c => forallb (matches_simple n) c) sel.

(** [tag.select(sel)] and [tag.select_one(sel)] *)
Definition select (sel : selector) (n : node) : list node :=
  filter (matches sel) (descendants n).

Definition select_one (sel : selector) (n : node) : option node :=
  hd_error (select sel n).

Definition tag_name (n : node) : string :=
  match n with
  | Tag name _ _ _ => name
  | _ => ""
  end.

(** The elements whose text the HTML tree builder keeps in a string class
    of their own. *)
Definition STRING_CONTAINERS : list string := ["rt"; "rp"; "style"; "script"; "template"].

(** [tag.interesting_string_types]: the string a tag named [name] takes
    from the page element [d], if it takes it: a tag other than the five
    takes the text nodes, one of the five takes the strings of its own
    class and no other. *)
Definition interesting (name : string) (d : node) : option string :=
  match d with
  | NavigableString s => if mem name STRING_CONTAINERS then None else Some s
  | ContainerString container s =>
      if mem name STRING_CONTAINERS && String.eqb container name then Some s else None
  | _ => None
  end.

(** [tag.get_text(strip=True)]: the strings below the tag that are of its
    interesting types, each stripped, the empty ones dropped, joined without
    a separator. *)
Definition stripped_strings (n : node) : list string :=
  flat_map (fun d => match interesting (tag_name n) d with
                     | Some s =>
                         let s' := Str.strip s in
                         if String.eqb s' "" then [] else [s']
                     | None => []
                     end) (descendants n).

Definition get_text (n : node) : string := String.concat "" (stripped_strings n).

(* ===================================================================== *)
(** ** Game records and the field resolvers *)
(* ===================================================================== *)

(** [class Game(BaseModel)] *)
Record Game : Type := {
  game_id : string;
  home_team : string;
  away_team : string;
  home_score : string;
  away_score : string;
  time : string;
  date : option string;
  sport : string;
  status : string;
  location : option string;
  league : option string;
  home_record : option string;
  away_record : option string
}.

(** What one turn of the loop over the game containers does: it appends a
    record, leaves the turn by [continue], or raises inside the [try]. *)
Inductive outcome : Type :=
| Appended (g : Game)
| Continued
| Raised (e : string).

(** The selectors of the program. *)
Definition DIV_GAMEDAY : selector := [[sel_type "div"; sel_has_attr "gameday"]].
Definition DIV_MATCH : selector := [[sel_type "div"; sel_class "match"]].
Definition DIV_TEAM_LEFT : selector := [[sel_type "div"; sel_class "iml-team-left"]].
Definition DIV_TEAM_RIGHT : selector := [[sel_type "div"; sel_class "iml-team-right"]].
Definition A_TEAMHOME : selector := [[sel_type "a"; sel_class "teamHome"]].
Definition A_TEAMAWAY : selector := [[sel_type "a"; sel_class "teamAway"]].
Definition ANY_TEAMHOME : selector :=
  [[sel_type "a"; sel_class "teamHome"]; [sel_class "teamHome"]].
Definition ANY_TEAMAWAY : selector :=
  [[sel_type "a"; sel_class "teamAway"]; [sel_class "teamAway"]].
Definition TEAMHOME : selector := [[sel_class "teamHome"]].
Definition TEAMAWAY : selector := [[sel_class "teamAway"]].
Definition ANY_SCORE1 : selector :=
  [[sel_type "strong"; sel_class "match-team1Score"]; [sel_class "match-team1Score"]].
Definition ANY_SCORE2 : selector :=
  [[sel_type "strong"; sel_class "match-team2Score"]; [sel_class "match-team2Score"]].
Definition SCORE1 : selector := [[sel_class "match-team1Score"]].
Definition SCORE2 : selector := [[sel_class "match-team2Score"]].
Definition SMALL_MUTED : selector := [[sel_type "small"; sel_class "text-muted"]].
Definition TIME : selector := [[sel_class "time"]].
Definition A_SPORT : selector := [[sel_type "a"; sel_attr_contains "href" "/sport/"]].
Definition A_LEAGUE : selector := [[sel_type "a"; sel_attr_contains "href" "/league/"]].
Definition FACILITY : selector := [[sel_class "match-facility"]].
Definition COURT : selector := [[sel_class "iml-game-court"]].
Definition LOCATION_VENUE : selector := [[sel_class "location"]; [sel_class "venue"]].
Definition DIV_MEDIA : selector := [[sel_type "div"; sel_class "media"]].
Definition TEAM_LINK : selector := [[sel_class "teamHome"]; [sel_class "teamAway"]].
Definition MEDIA_BODY : selector := [[sel_class "media-body"]].
Definition P_NOW_DATE : selector := [[sel_id "pNowDate"]].
Definition ANY_GAMEDAY : selector := [[sel_has_attr "gameday"]].

(** [elem.get_text(strip=True) if elem else default] *)
Definition text_or (default : string) (elem : option node) : string :=
  match elem with
  | Some e => get_text e
  | None => default
  end.

(** [elem.get_text(strip=True) if elem else None] *)
Definition text_opt (elem : option node) : option string :=
  match elem with
  | Some e => Some (get_text e)
  | None => None
  end.

(** Lines 374-386: the team link of the structured layout first, then the
    role class anywhere in the container. *)
Definition resolve_team_elem (wrapper link fallback : selector)
    (game_elem : node) : option node :=
  let team_container := select_one wrapper game_elem in
  let team_elem := match team_container with
                   | Some c => select_one link c
                   | None => None
                   end in
  match team_elem with
  | Some e => Some e
  | None => select_one fallback game_elem
  end.

Definition home_team_elem_of : node -> option node :=
  resolve_team_elem DIV_TEAM_LEFT A_TEAMHOME ANY_TEAMHOME.
Definition away_team_elem_of : node -> option node :=
  resolve_team_elem DIV_TEAM_RIGHT A_TEAMAWAY ANY_TEAMAWAY.

(** Lines 396-401. *)
Definition home_score_text_of (game_elem : node) : string :=
  text_or "--" (select_one ANY_SCORE1 game_elem).
Definition away_score_text_of (game_elem : node) : string :=
  text_or "--" (select_one ANY_SCORE2 game_elem).

(** Lines 404-406: the forfeit detector reads the first [small.text-muted]
    element of the container. *)
Definition forfeit_text_of (game_elem : node) : string :=
  match select_one SMALL_MUTED game_elem with
  | Some forfeit_elem => Str.lower (get_text forfeit_elem)
  | None => ""
  end.

Definition marks_forfeit (lowered : string) : bool :=
  Str.contains "forfeit" lowered || Str.contains "default" lowered.

Definition is_forfeit_of (game_elem : node) : bool :=
  marks_forfeit (forfeit_text_of game_elem).

(** Lines 409-432: status and the two scores of the record. *)
Definition classify (home_score_text away_score_text : string) (is_forfeit : bool)
    : string * string * string :=
  if String.eqb home_score_text "--" && String.eqb away_score_text "--" then
    if is_forfeit then ("forfeit", "--", "--") else ("scheduled", "--", "--")
  else if Str.isdigit home_score_text && Str.isdigit away_score_text then
    ((if is_forfeit then "forfeit" else "completed"), home_score_text, away_score_text)
  else
    ((if is_forfeit then "forfeit" else "unknown"), home_score_text, away_score_text).

(** Lines 443-453: facility and court. *)
Definition location_of (game_elem : node) : option string :=
  let facility_elem := select_one FACILITY game_elem in
  let court_elem := select_one COURT game_elem in
  match facility_elem, court_elem with
  | Some f, Some c =>
      let facility := get_text f in
      let court := get_text c in
      Some (facility ++ ", " ++ court)
  | Some f, None => Some (get_text f)
  | None, _ => None
  end.

(** Lines 468-486: one turn of the loop over the [.media] blocks; the pair
    is ([home_record], [away_record]). *)
Definition record_step (recs : option string * option string) (media : node)
    : option string * option string :=
  match select_one TEAM_LINK media with
  | None => recs
  | Some team_link =>
      match select_one MEDIA_BODY media with
      | None => recs
      | Some media_body =>
          match select_one SMALL_MUTED media_body with
          | None => recs
          | Some record_elem =>
              let record_text := get_text record_elem in
              if Str.contains "-" record_text && Str.contains "(" record_text then
                if mem "teamHome" (tag_classes team_link) then
                  (Some record_text, snd recs)
                else if mem "teamAway" (tag_classes team_link) then
                  (fst recs, Some record_text)
                else recs
              else recs
          end
      end
  end.

Definition records_of (game_elem : node) : option string * option string :=
  fold_left record_step (select DIV_MEDIA game_elem) (None, None).

(** Lines 368-504: the body of the [try] of [parse_games_html_with_dates]. *)
Definition detailed_game (current_date : option string) (game_elem : node) : outcome :=
  let game_id := get_default game_elem "data-id" "" in
  match home_team_elem_of game_elem, away_team_elem_of game_elem with
  | Some home_team_elem, Some away_team_elem =>
      let home_team := get_text home_team_elem in
      let away_team := get_text away_team_elem in
      let '(status, home_score, away_score) :=
        classify (home_score_text_of game_elem) (away_score_text_of game_elem)
                 (is_forfeit_of game_elem) in
      let game_time := text_or "TBD" (select_one TIME game_elem) in
      let sport := text_or "Unknown" (select_one A_SPORT game_elem) in
      let location := location_of game_elem in
      let league := text_opt (select_one A_LEAGUE game_elem) in
      let '(home_record, away_record) := records_of game_elem in
      Appended {| game_id := game_id; home_team := home_team; away_team := away_team;
                  home_score := home_score; away_score := away_score;
                  time := game_time; date := current_date; sport := sport;
                  status := status; location := location; league := league;
                  home_record := home_record; away_record := away_record |}
  | _, _ => Continued
  end.

(** Lines 583-592: the status rule of [parse_games_html]. *)
Definition simple_status (home_score away_score : string) : string :=
  if String.eqb home_score "--" || String.eqb away_score "--" then "scheduled"
  else if Str.isdigit home_score && Str.isdigit away_score then "completed"
  else "unknown".

(** Lines 546-608: the body of the [try] of [parse_games_html]. *)
Definition simple_game (current_date : option string) (game_elem : node) : outcome :=
  let game_id := get_default game_elem "data-id" "" in
  match select_one TEAMHOME game_elem, select_one TEAMAWAY game_elem with
  | Some home_team_elem, Some away_team_elem =>
      let home_team := get_text home_team_elem in
      let away_team := get_text away_team_elem in
      let home_score := text_or "--" (select_one SCORE1 game_elem) in
      let away_score := text_or "--" (select_one SCORE2 game_elem) in
      let game_time := text_or "TBD" (select_one TIME game_elem) in
      let sport := text_or "Unknown" (select_one A_SPORT game_elem) in
      let location := text_opt (select_one LOCATION_VENUE game_elem) in
      let league := text_opt (select_one A_LEAGUE game_elem) in
      let status := simple_status home_score away_score in
      Appended {| game_id := game_id; home_team := home_team; away_team := away_team;
                  home_score := home_score; away_score := away_score;
                  time := game_time; date := current_date; sport := sport;
                  status := status; location := location; league := league;
                  home_record := None; away_record := None |}
  | _, _ => Continued
  end.

(* ===================================================================== *)
(** ** The two extraction entry points *)
(* ===================================================================== *)

(** The local list [games] and the standard output. *)
Record run_state : Type := { games : list Game; stdout : list string }.

(** [print(line)] on a standard output. *)
Definition say (line : string) (out : list string) : list string := app out [line].

Definition print (line : string) (st : run_state) : run_state :=
  {| games := games st; stdout := say line (stdout st) |}.

(** [games.append(game)] *)
Definition append (game : Game) (st : run_state) : run_state :=
  {| games := app (games st) [game]; stdout := stdout st |}.

Section GameLoop.

(** The statements inside the [try]. *)
Variable body : node -> outcome.

(** [for game_elem in game_elements: try: ... except Exception as e: ...] *)
Fixpoint for_game_elements (game_elements : list node) (st : run_state) : run_state :=
  match game_elements with
  | [] => st
  | game_elem :: rest =>
      let st' := match body game_elem with
                 | Appended game => append game st
                 | Continued => st
                 | Raised e => print ("Error parsing game: " ++ e) st
                 end in
      for_game_elements rest st'
  end.

End GameLoop.

Definition show_date (d : option string) : string :=
  match d with
  | Some s => s
  | None => "None"
  end.

(** [for date_section in date_sections: ...] (lines 357-509) *)
Fixpoint for_date_sections (date_sections : list node) (st : run_state) : run_state :=
  match date_sections with
  | [] => st
  | date_section :: rest =>
      let current_date := get date_section "gameday" in
      let game_elements := select DIV_MATCH date_section in
      let st := print ("  Date " ++ show_date current_date ++ ": "
                       ++ Str.of_nat (length game_elements) ++ " games") st in
      let st := for_game_elements (detailed_game current_date) game_elements st in
      for_date_sections rest st
  end.

(** [parse_games_html_with_dates]; [soup] is the parsed [html_content],
    [out] the standard output before the call. *)
Definition parse_games_html_with_dates (soup : node) (out : list string)
    : list Game * list string :=
  let st := {| games := []; stdout := out |} in
  let date_sections := select DIV_GAMEDAY soup in
  let st := print ("Found " ++ Str.of_nat (length date_sections) ++ " date sections") st in
  let st := for_date_sections date_sections st in
  (games st, stdout st).

(** Python truth value of an [Optional[str]]. *)
Definition truthy (d : option string) : bool :=
  match d with
  | Some s => negb (String.eqb s "")
  | None => false
  end.

(** Lines 530-540: the date of every record of [parse_games_html]. *)
Definition resolve_date (soup : node) (date_str : option string) : option string :=
  let current_date := date_str in
  let current_date :=
    if truthy current_date then current_date
    else text_opt (select_one P_NOW_DATE soup) in
  let current_date :=
    if truthy current_date then current_date
    else match select_one ANY_GAMEDAY soup with
         | Some game_day_elem => get game_day_elem "gameday"
         | None => current_date
         end in
  current_date.

(** [parse_games_html]; [date_str] is [None] when the caller passes none. *)
Definition parse_games_html (soup : node) (date_str : option string) (out : list string)
    : list Game * list string :=
  let st := {| games := []; stdout := out |} in
  let current_date := resolve_date soup date_str in
  let game_elements := select DIV_MATCH soup in
  let st := for_game_elements (simple_game current_date) game_elements st in
  (games st, stdout st).

(* ===================================================================== *)
(** ** The entry points from the markup *)
(* ===================================================================== *)

Section Markup.

(** [BeautifulSoup(html_content, 'html.parser')]: the tree, or the message
    of the exception the parser raises on a markup it rejects
    ([ParserRejectedMarkup]). *)
Variable html_parser : string -> string + node.



End Markup.

(* ===================================================================== *)
(** ** The day aggregator *)
(* ===================================================================== *)

(** What the request of one day comes to: an exception inside the [try]
    (transport error, timeout, HTTP error status, a body that is not the
    expected JSON, a markup that the parser rejects), or a JSON object whose
    ['Data'] member is the given string ([None] when the member is missing
    or null). *)
Inductive response : Type :=
| Failed (e : string)
| Replied (data : option string).

Section Aggregator.

(** [BeautifulSoup(html_content, 'html.parser')] *)
Variable BeautifulSoup : string -> node.

(** The upstream service, asked for the games of [date_str]. *)
Variable post : string -> response.

(** [d.strftime("%m/%d/%Y")] and [str(d)] of the day with ordinal [d]. *)
Variable strftime : Z -> string.
Variable isoformat : Z -> string.

(** [fetch_games_for_specific_date] (lines 246-264) *)
Definition fetch_games_for_specific_date (date_str : string) (out : list string)
    : list Game * list string :=
  match post date_str with
  | Replied data =>
      match data with
      | Some html_content =>
          if truthy data
          then parse_games_html_with_dates (BeautifulSoup html_content) out
          else ([], out)
      | None => ([], out)
      end
  | Failed e => ([], say ("Error fetching games for " ++ date_str ++ ": " ++ e) out)
  end.

(** Line 182 *)
Definition date_str_of (current_date : Z) : string :=
  Str.replace "/0" "/" (Str.lstrip_zero (strftime current_date)).

(** The [while current_date <= end_date] loop (lines 181-191); the state
    is [all_games] and the standard output. *)
Equations? fetch_loop (end_date current_date : Z) (st : list Game * list string)
    : list Game * list string
    by wf (Z.to_nat (end_date - current_date + 1)) lt :=
  fetch_loop end_date current_date st with Z_le_gt_dec current_date end_date => {
    | left _ =>
        let date_str := date_str_of current_date in
        let '(games, out) := fetch_games_for_specific_date date_str (snd st) in
        let st' := match games with
                   | [] => (fst st, out)
                   | _ => (app (fst st) games,
                           say ("  " ++ date_str ++ ": "
                                ++ Str.of_nat (length games) ++ " games") out)
                   end in
        fetch_loop end_date (current_date + 1) st'
    | right _ => st }.
Proof. lia. Qed.

(** [fetch_all_games]; [today] is the ordinal of [datetime.now().date()].
    The first message is printed without its leading line break. *)
Definition fetch_all_games (today : Z) (out : list string) : list Game * list string :=
  let start_date := (today - 3)%Z in
  let end_date := (today + 7)%Z in
  let all_games := [] in
  let out := say ("=== Fetching games from " ++ isoformat start_date ++ " to "
                  ++ isoformat end_date ++ " (day by day) ===") out in
  let '(all_games, out) := fetch_loop end_date start_date (all_games, out) in
  (all_games, say ("Total games fetched: " ++ Str.of_nat (length all_games)) out).

End Aggregator.

(* ===================================================================== *)
(** ** The single-day request of the simple layout *)
(* ===================================================================== *)

(** What the request of [fetch_games_for_date] comes to: an exception
    inside the [try], or a JSON reply with the string found under
    ["data"]["manageGamesUCHtml"] ([None] when one of the two keys is
    missing). *)
Inductive page_response : Type :=
| PageFailed (e : string)
| PageReplied (html : option string).

Section DayPage.

Variable BeautifulSoup : string -> node.

(** The upstream service, asked for the page of [date_str]. *)
Variable post_page : string -> page_response.

(** [str(payload)] for a [date_str] that [repr] leaves as it is. *)
Definition payload_repr (date_str : string) : string :=
  "{'entityId': '13cc30785f6f4658aebbb07d83e19f67', 'entityType': 'intramural', "
  ++ "'pageType': 'Intramural', 'resultsFilter': 0, 'clientVersion': '572', "
  ++ "'isMobileDevice': True, 'isSSO': False, 'cachedKey': None, 'clientType': 0, "
  ++ "'selectedDate': '" ++ date_str ++ "'}".

(** [fetch_games_for_date] (lines 309-336); the first message is printed
    without its leading line break. *)
Definition fetch_games_for_date (date_str : string) (out : list string)
    : list Game * list string :=
  let out := say ("=== Fetching games for date: " ++ date_str ++ " ===") out in
  let out := say ("Payload: " ++ payload_repr date_str) out in
  match post_page date_str with
  | PageReplied (Some html_content) =>
      let out := say ("HTML length for " ++ date_str ++ ": "
                      ++ Str.of_nat (String.length html_content) ++ " characters") out in
      let '(games, out) := parse_games_html (BeautifulSoup html_content)
                                            (Some date_str) out in
      (games, say ("Parsed " ++ Str.of_nat (length games) ++ " games for " ++ date_str) out)
  | PageReplied None => ([], say ("No games HTML found for " ++ date_str) out)
  | PageFailed e => ([], say ("Error fetching games for " ++ date_str ++ ": " ++ e) out)
  end.

End DayPage.

(* ===================================================================== *)
(** ** The two endpoints over the cache file *)
(* ===================================================================== *)

(** The cache file as [get_games] meets it: absent, present but raising on
    [open], or present with a text. *)
Inductive cache_file : Type :=
| Absent
| Unreadable (e : string)
| Text (s : string).

Module Api.

(** [class GamesResponse(BaseModel)] *)
Record GamesResponse : Type := {
  success : bool;
  total_games : nat;
  games : list Game;
  message : option string
}.

(** The response of the two [except] branches and of the missing cache. *)
Definition failure (msg : string) : GamesResponse :=
  {| success := false; total_games := 0; games := []; message := Some msg |}.

Section Endpoints.

Variable BeautifulSoup : string -> node.
Variable post : string -> response.
Variable strftime : Z -> string.
Variable isoformat : Z -> string.

(** [json.load(f)], [data.get('games', [])] and the [Game] built from each
    entry, on the text of the file: the games, or the message of the
    exception that one of the three steps raises. *)
Variable load_games : string -> string + list Game.

(** The text [json.dump(cache_data, f, indent=2)] writes for the
    [cache_data] with these games, this count and this [last_updated]. *)
Variable dump : list Game -> nat -> string -> string.

(** [get_games] (lines 78-109) *)
Definition get_games (file : cache_file) (out : list string)
    : GamesResponse * list string :=
  match file with
  | Text text =>
      match load_games text with
      | inr games =>
          ({| success := true; total_games := length games; games := games;
              message := Some ("Loaded " ++ Str.of_nat (length games)
                               ++ " games from cache") |},
           say ("Returning " ++ Str.of_nat (length games) ++ " games from cache") out)
      | inl e =>
          (failure ("Error reading cache: " ++ e), say ("Error reading cache: " ++ e) out)
      end
  | Unreadable e =>
      (failure ("Error reading cache: " ++ e), say ("Error reading cache: " ++ e) out)
  | Absent =>
      (failure "No cached data found. Use /api/games/refresh to fetch from API", out)
  end.

(** [refresh_games] (lines 125-156).  [write_error] is the exception that
    opening the cache file for writing raises, if it raises one; [now] is
    [str(datetime.now())] and [today] the ordinal of the day. *)
Definition refresh_games (write_error : option string) (now : string) (today : Z)
    (file : cache_file) (out : list string)
    : GamesResponse * cache_file * list string :=
  let '(games, out) := fetch_all_games BeautifulSoup post strftime isoformat today out in
  match write_error with
  | None =>
      let file := Text (dump games (length games) now) in
      let out := say ("Fetched and cached " ++ Str.of_nat (length games) ++ " games") out in
      ({| success := true; total_games := length games; games := games;
          message := Some ("Successfully fetched and cached "
                           ++ Str.of_nat (length games)
                           ++ " games (last 3 days + next 7 days)") |},
       file, out)
  | Some e =>
      (failure ("Error fetching games: " ++ e), file,
       say ("Error fetching games: " ++ e) out)
  end.

End Endpoints.

End Api.

(* ===================================================================== *)
(** ** Vocabulary of the properties *)
(* ===================================================================== *)

(** The records one turn of the loop adds to [games]. *)
Definition emitted (o : outcome) : list Game :=
  match o with
  | Appended g => [g]
  | _ => []
  end.

(** The extraction attempts of [parse_games_html_with_dates], in the order
    the loops make them: the date of the section and the game container. *)
Definition attempts (soup : node) : list (option string * node) :=
  flat_map (fun date_section =>
              map (pair (get date_section "gameday")) (select DIV_MATCH date_section))
           (select DIV_GAMEDAY soup).

(** The status component of what [classify] returns. *)
Definition status_of (x : string * string * string) : string := fst (fst x).

(** The container holds forfeit/default marker text in some muted element,
    whatever its position among the muted elements. *)
Definition marker_anywhere (game_elem : node) : bool :=
  existsb (fun m => marks_forfeit (Str.lower (get_text m)))
          (select SMALL_MUTED game_elem).

(** Both score elements are there and their texts are numeric. *)
Definition numeric_scores (s1 s2 : selector) (game_elem : node) : Prop :=
  exists e1 e2,
    select_one s1 game_elem = Some e1 /\ select_one s2 game_elem = Some e2
    /\ Str.isdigit (get_text e1) = true /\ Str.isdigit (get_text e2) = true.

(** The turn adds no record. *)
Definition skipped (o : outcome) : bool :=
  match o with
  | Appended _ => false
  | _ => true
  end.

(** Elements paired with their position in document order, counted from
    [off]. *)
Definition indexed_from (off : nat) (l : list node) : list (nat * node) :=
  combine (seq off (length l)) l.

(** [select] that also reports where each match stands; the elements below
    an element at position [i] start at position [S i]. *)
Definition select_at (sel : selector) (off : nat) (n : node) : list (nat * node) :=
  filter (fun p => matches sel (snd p)) (indexed_from off (descendants n)).

(** The attempts of [parse_games_html_with_dates], each with the position
    of its container among the elements of the document. *)
Definition attempts_at (soup : node) : list (nat * (option string * node)) :=
  flat_map (fun p => map (fun q => (fst q, (get (snd p) "gameday", snd q)))
                         (select_at DIV_MATCH (S (fst p)) (snd p)))
           (select_at DIV_GAMEDAY 0 soup).

(** No day section lies inside another day section. *)
Definition no_nested_sections (soup : node) : bool :=
  forallb (fun date_section =>
             match select DIV_GAMEDAY date_section with
             | [] => true
             | _ => false
             end)
          (select DIV_GAMEDAY soup).

(** [n] consecutive days from [current_date] on. *)
Fixpoint days_from (current_date : Z) (n : nat) : list Z :=
  match n with
  | O => []
  | S k => current_date :: days_from (current_date + 1) k
  end.

(** Two digits of a date without the zero that pads them. *)
Definition unpad (a b : ascii) : string :=
  if Ascii.eqb a "0" then String b EmptyString else String a (String b EmptyString).

(** An ASCII digit. *)
Definition ascii_digit (c : ascii) : bool := Str.between 48 57 (Str.code c).

(** The days [fetch_all_games] asks for. *)
Definition window (today : Z) : list Z :=
  [today - 3; today - 2; today - 1; today; today + 1; today + 2;
   today + 3; today + 4; today + 5; today + 6; today + 7]%Z.

(* ===================================================================== *)
(** ** Sample documents *)
(* ===================================================================== *)

Module Samples.

Definition text := NavigableString.
Definition elem (name : string) (cls : list string) (kids : list node) : node :=
  Tag name cls [] kids.
Definition document (kids : list node) : node := Tag "[document]" [] [] kids.
Definition day (gameday : string) (kids : list node) : node :=
  Tag "div" [] [("gameday", gameday)] kids.
Definition game (id : string) (kids : list node) : node :=
  Tag "div" ["match"] [("data-id", id)] kids.

Definition home (name : string) : node := elem "a" ["teamHome"] [text name].
Definition away (name : string) : node := elem "a" ["teamAway"] [text name].
Definition score1 (s : string) : node := elem "strong" ["match-team1Score"] [text s].
Definition score2 (s : string) : node := elem "strong" ["match-team2Score"] [text s].
Definition muted (s : string) : node := elem "small" ["text-muted"] [text s].

(** <div class="match" data-id="g1"><a class="teamHome">Alpha</a>
    <a class="teamAway">Beta</a><strong class="match-team1Score"><span
    class="match-win">21</span></strong><strong
    class="match-team2Score">14</strong></div> *)
Definition played : node :=
  game "g1" [home "Alpha"; away "Beta";
             elem "strong" ["match-team1Score"] [elem "span" ["match-win"] [text "21"]];
             score2 "14"].

(** A game without score elements whose only muted text is
    "Team A Default". *)
Definition defaulted : node :=
  game "g2" [home "Gamma"; away "Delta"; muted "Team A Default"].

(** The scenario of the specification: one day section, two games. *)
Definition scenario : node := document [day "2/15/2026" [played; defaulted]].

(** A played game whose first muted element is the home team's record and
    whose second muted element says "Forfeit". *)
Definition late_marker : node :=
  game "g3" [home "Alpha"; muted "(3-1-0)"; away "Beta";
             score1 "21"; score2 "14"; muted "Forfeit"].
Definition late_marker_doc : node := document [day "2/15/2026" [late_marker]].

(** The same without score elements. *)
Definition late_marker_unscored : node :=
  game "g4" [home "Alpha"; muted "(3-1-0)"; away "Beta"; muted "Forfeit"].
Definition late_marker_unscored_doc : node :=
  document [day "2/15/2026" [late_marker_unscored]].

(** A played game whose only muted element says "Forfeit". *)
Definition forfeited : node :=
  game "g5" [home "Alpha"; away "Beta"; score1 "21"; score2 "14"; muted "Forfeit"].
Definition forfeited_doc : node := document [forfeited].

(** A game with a home score and no away score element. *)
Definition partial : node :=
  game "g6" [home "Alpha"; away "Beta"; score1 "21"].
Definition partial_doc : node := document [partial].
Definition partial_day_doc : node := document [day "2/15/2026" [partial]].

(** A game whose home team link has no text:
    <a class="teamHome"></a><a class="teamAway">Beta</a>. *)
Definition nameless : node :=
  game "g7" [elem "a" ["teamHome"] []; away "Beta"].
Definition nameless_doc : node := document [nameless].
Definition nameless_day_doc : node := document [day "2/15/2026" [nameless]].

(** A game without an away team element, between two complete games. *)
Definition homeless : node := game "g8" [home "Alpha"].
Definition mixed_doc : node := document [day "2/15/2026" [played; homeless; defaulted]].
Definition mixed_plain_doc : node := document [played; homeless; defaulted].

(** A day section inside a day section:
    <div gameday="2/15/2026"><div gameday="2/16/2026"><div class="match"
    ...>...</div></div></div>. *)
Definition nested_doc : node :=
  document [day "2/15/2026" [day "2/16/2026" [played]]].

(** Two day sections side by side. *)
Definition two_days_doc : node :=
  document [day "2/15/2026" [played; defaulted]; day "2/16/2026" [forfeited]].

(** Facility and court of the location scenario. *)
Definition facility (s : string) : node := elem "span" ["match-facility"] [text s].
Definition court (s : string) : node := elem "span" ["iml-game-court"] [text s].
Definition located : node :=
  game "g9" [home "Alpha"; away "Beta"; facility "Court Complex"; court "Court 3"].
Definition facility_only : node :=
  game "g10" [home "Alpha"; away "Beta"; facility "Court Complex"].
Definition court_only : node :=
  game "g11" [home "Alpha"; away "Beta"; court "Court 3"].

(** A fragment without day sections that carries its own date. *)
Definition dated_plain_doc : node :=
  document [Tag "p" [] [("id", "pNowDate")] [text "2/20/2026"]; played].

(** An upstream that fails for every day, and one that answers the
    scenario for one day and fails for the others. *)
Definition down (date_str : string) : response := Failed "timeout".
Definition up_once (date_str : string) : response :=
  if String.eqb date_str "2/15/2026" then Replied (Some "<html>") else Failed "timeout".
Definition parser (html_content : string) : node := scenario.
Definition mdY (d : Z) : string :=
  if Z.eqb d 5 then "02/15/2026" else "02/01/2026".
Definition iso (d : Z) : string := "2026-02-01".


(** A record of the day 2/15/2026 with the default time and sport. *)
Definition record (id h a hs aw st : string) (loc : option string) : Game :=
  {| game_id := id; home_team := h; away_team := a;
     home_score := hs; away_score := aw; time := "TBD";
     date := Some "2/15/2026"; sport := "Unknown"; status := st;
     location := loc; league := None; home_record := None; away_record := None |}.

Definition played_record : Game :=
  record "g1" "Alpha" "Beta" "21" "14" "completed" None.
Definition defaulted_record : Game :=
  record "g2" "Gamma" "Delta" "--" "--" "forfeit" None.
Definition partial_record : Game :=
  record "g6" "Alpha" "Beta" "21" "--" "unknown" None.
Definition located_record : Game :=
  record "g9" "Alpha" "Beta" "--" "--" "scheduled" (Some "Court Complex, Court 3").

(** A game with the team blocks of the detailed layout: the home block
    shows the record "(3-1-0)", the away block a text that is no record. *)
Definition media_block (link : node) (note : string) : node :=
  elem "div" ["media"] [elem "div" ["media-body"] [link; muted note]].
Definition with_records : node :=
  game "g12" [elem "div" ["iml-team-left"] [media_block (home "Alpha") "(3-1-0)"];
              elem "div" ["iml-team-right"] [media_block (away "Beta") "Seed 2"]].
Definition with_records_doc : node := document [day "2/15/2026" [with_records]].
Definition with_records_record : Game :=
  {| game_id := "g12"; home_team := "Alpha"; away_team := "Beta";
     home_score := "--"; away_score := "--"; time := "TBD";
     date := Some "2/15/2026"; sport := "Unknown"; status := "scheduled";
     location := None; league := None;
     home_record := Some "(3-1-0)"; away_record := None |}.

(** The record [parse_games_html] emits for [partial] when no date is
    passed. *)
Definition partial_plain_record : Game :=
  {| game_id := "g6"; home_team := "Alpha"; away_team := "Beta";
     home_score := "21"; away_score := "--"; time := "TBD";
     date := None; sport := "Unknown"; status := "scheduled";
     location := None; league := None; home_record := None; away_record := None |}.

(** The record of [played] when the caller passes the date 3/1/2026. *)
Definition played_march_record : Game :=
  {| game_id := "g1"; home_team := "Alpha"; away_team := "Beta";
     home_score := "21"; away_score := "14"; time := "TBD";
     date := Some "3/1/2026"; sport := "Unknown"; status := "completed";
     location := None; league := None; home_record := None; away_record := None |}.


(** The page service of the simple layout, and a cache codec that knows
    the two records of the scenario. *)
Definition page_up (date_str : string) : page_response := PageReplied (Some "<html>").
Definition load_scenario (text : string) : string + list Game :=
  inr [played_record; defaulted_record].
Definition dump_any (games : list Game) (count : nat) (last_updated : string) : string :=
  "{...}".

End Samples.

(* ===================================================================== *)
(** ** The loops as list comprehensions *)
(* ===================================================================== *)

Lemma for_game_elements_games (body : node -> outcome) (l : list node) (st : run_state) :
  games (for_game_elements body l st)
  = app (games st) (flat_map (fun c => emitted (body c)) l).
Proof.
  revert st. induction l as [|c l IH]; intros st; simpl.
  - now rewrite app_nil_r.
  - rewrite IH. destruct (body c); simpl; trivial.
    now rewrite <- app_assoc.
Qed.

Lemma for_date_sections_games (secs : list node) (st : run_state) :
  games (for_date_sections secs st)
  = app (games st)
        (flat_map (fun s => flat_map (fun c => emitted (detailed_game (get s "gameday") c))
                                     (select DIV_MATCH s)) secs).
Proof.
  revert st. induction secs as [|s secs IH]; intros st; simpl.
  - now rewrite app_nil_r.
  - rewrite IH, for_game_elements_games. simpl. now rewrite <- app_assoc.
Qed.

Lemma flat_map_map {A B C : Type} (f : A -> B) (g : B -> list C) (l : list A) :
  flat_map g (map f l) = flat_map (fun x => g (f x)) l.
Proof. induction l; simpl; congruence. Qed.

Lemma flat_map_flat_map {A B C : Type} (f : A -> list B) (g : B -> list C) (l : list A) :
  flat_map g (flat_map f l) = flat_map (fun x => flat_map g (f x)) l.
Proof.
  induction l as [|x l IH]; simpl; trivial.
  now rewrite flat_map_app, IH.
Qed.

(** The records of [parse_games_html_with_dates]: one turn per attempt. *)
Lemma with_dates_games (soup : node) (out : list string) :
  fst (parse_games_html_with_dates soup out)
  = flat_map (fun a => emitted (detailed_game (fst a) (snd a))) (attempts soup).
Proof.
  unfold parse_games_html_with_dates, attempts. simpl.
  rewrite for_date_sections_games. simpl.
  rewrite flat_map_flat_map. apply flat_map_ext. intros s.
  now rewrite flat_map_map.
Qed.

(** The records of [parse_games_html]: one turn per container. *)
Lemma plain_games (soup : node) (date_str : option string) (out : list string) :
  fst (parse_games_html soup date_str out)
  = flat_map (fun c => emitted (simple_game (resolve_date soup date_str) c))
             (select DIV_MATCH soup).
Proof.
  unfold parse_games_html. simpl. now rewrite for_game_elements_games.
Qed.

Lemma in_emitted (o : outcome) (g : Game) : In g (emitted o) <-> o = Appended g.
Proof.
  destruct o; simpl; split; intros H; try contradiction; try discriminate.
  - destruct H as [->|[]]. reflexivity.
  - injection H as ->. now left.
Qed.

Lemma with_dates_in (soup : node) (out : list string) (g : Game) :
  In g (fst (parse_games_html_with_dates soup out))
  <-> exists d c, In (d, c) (attempts soup) /\ detailed_game d c = Appended g.
Proof.
  rewrite with_dates_games, in_flat_map. split.
  - intros [[d c] [Hin Hg]]. exists d, c. split; trivial. now apply in_emitted.
  - intros (d & c & Hin & Hg). exists (d, c). split; trivial. now apply in_emitted.
Qed.

Lemma plain_in (soup : node) (date_str : option string) (out : list string) (g : Game) :
  In g (fst (parse_games_html soup date_str out))
  <-> exists c, In c (select DIV_MATCH soup)
                /\ simple_game (resolve_date soup date_str) c = Appended g.
Proof.
  rewrite plain_games, in_flat_map. split.
  - intros [c [Hin Hg]]. exists c. split; trivial. now apply in_emitted.
  - intros (c & Hin & Hg). exists c. split; trivial. now apply in_emitted.
Qed.

(* ===================================================================== *)
(** ** What an appended record holds *)
(* ===================================================================== *)

Lemma detailed_game_appended (d : option string) (c : node) (g : Game) :
  detailed_game d c = Appended g ->
  exists h a,
    home_team_elem_of c = Some h /\ away_team_elem_of c = Some a
    /\ home_team g = get_text h /\ away_team g = get_text a
    /\ status g = status_of (classify (home_score_text_of c) (away_score_text_of c)
                                      (is_forfeit_of c))
    /\ location g = location_of c /\ date g = d.
Proof.
  unfold detailed_game.
  destruct (home_team_elem_of c) as [h|]; [|discriminate].
  destruct (away_team_elem_of c) as [a|]; [|discriminate].
  destruct (classify _ _ _) as [[st hs] aw] eqn:Hc.
  destruct (records_of c) as [hr ar].
  intros H. injection H as <-. exists h, a. simpl. repeat split; reflexivity.
Qed.

Lemma detailed_game_skipped (d : option string) (c : node) :
  skipped (detailed_game d c) = true
  <-> home_team_elem_of c = None \/ away_team_elem_of c = None.
Proof.
  unfold detailed_game.
  destruct (home_team_elem_of c) as [h|]; [|simpl; intuition].
  destruct (away_team_elem_of c) as [a|]; [|simpl; intuition].
  destruct (classify _ _ _) as [[st hs] aw]. destruct (records_of c). simpl.
  split; [discriminate | intros [H|H]; discriminate].
Qed.

Lemma simple_game_appended (d : option string) (c : node) (g : Game) :
  simple_game d c = Appended g ->
  exists h a,
    select_one TEAMHOME c = Some h /\ select_one TEAMAWAY c = Some a
    /\ home_team g = get_text h /\ away_team g = get_text a
    /\ status g = simple_status (text_or "--" (select_one SCORE1 c))
                                (text_or "--" (select_one SCORE2 c))
    /\ date g = d.
Proof.
  unfold simple_game.
  destruct (select_one TEAMHOME c) as [h|]; [|discriminate].
  destruct (select_one TEAMAWAY c) as [a|]; [|discriminate].
  intros H. injection H as <-. exists h, a. simpl. repeat split; reflexivity.
Qed.

Lemma simple_game_skipped (d : option string) (c : node) :
  skipped (simple_game d c) = true
  <-> select_one TEAMHOME c = None \/ select_one TEAMAWAY c = None.
Proof.
  unfold simple_game.
  destruct (select_one TEAMHOME c) as [h|]; [|simpl; intuition].
  destruct (select_one TEAMAWAY c) as [a|]; [|simpl; intuition].
  simpl. split; [discriminate | intros [H|H]; discriminate].
Qed.

(** A body of these two never raises: the [except] branch stays unused. *)
Lemma detailed_game_no_raise (d : option string) (c : node) (e : string) :
  detailed_game d c <> Raised e.
Proof.
  unfold detailed_game.
  destruct (home_team_elem_of c); [|discriminate].
  destruct (away_team_elem_of c); [|discriminate].
  destruct (classify _ _ _) as [[? ?] ?]. destruct (records_of c). discriminate.
Qed.

Lemma simple_game_no_raise (d : option string) (c : node) (e : string) :
  simple_game d c <> Raised e.
Proof.
  unfold simple_game.
  destruct (select_one TEAMHOME c); [|discriminate].
  destruct (select_one TEAMAWAY c); discriminate.
Qed.

(* ===================================================================== *)
(** ** The status classifier *)
(* ===================================================================== *)

Lemma classify_forfeit (h a : string) : status_of (classify h a true) = "forfeit".
Proof.
  unfold classify.
  destruct (String.eqb h "--" && String.eqb a "--"); trivial.
  destruct (Str.isdigit h && Str.isdigit a); trivial.
Qed.

Lemma classify_completed (h a : string) (f : bool) :
  status_of (classify h a f) = "completed"
  <-> Str.isdigit h = true /\ Str.isdigit a = true /\ f = false.
Proof.
  unfold classify.
  destruct (String.eqb h "--") eqn:Eh.
  - apply String.eqb_eq in Eh. subst h.
    destruct (String.eqb a "--"), f, (Str.isdigit a); simpl;
      split; try discriminate; intros (H1 & H2 & H3); discriminate.
  - simpl. destruct (Str.isdigit h), (Str.isdigit a), f; simpl;
      split; try discriminate; try (intros (H1 & H2 & H3); discriminate);
      intuition.
Qed.

Lemma classify_scheduled (h a : string) (f : bool) :
  status_of (classify h a f) = "scheduled" <-> h = "--" /\ a = "--" /\ f = false.
Proof.
  unfold classify.
  destruct (String.eqb h "--") eqn:Eh; destruct (String.eqb a "--") eqn:Ea; simpl.
  - apply String.eqb_eq in Eh, Ea. subst. destruct f; simpl; split;
      try discriminate; intuition discriminate.
  - apply String.eqb_neq in Ea.
    destruct (Str.isdigit h && Str.isdigit a), f; simpl; split;
      try discriminate; intuition.
  - apply String.eqb_neq in Eh.
    destruct (Str.isdigit h && Str.isdigit a), f; simpl; split;
      try discriminate; intuition.
  - apply String.eqb_neq in Eh.
    destruct (Str.isdigit h && Str.isdigit a), f; simpl; split;
      try discriminate; intuition.
Qed.

Lemma classify_one_sided (h a : string) :
  (h = "--" /\ a <> "--") \/ (h <> "--" /\ a = "--") ->
  status_of (classify h a false) = "unknown".
Proof.
  unfold classify. intros [[-> Ha]|[Hh ->]].
  - apply String.eqb_neq in Ha. rewrite Ha. reflexivity.
  - apply String.eqb_neq in Hh. rewrite Hh. simpl.
    now rewrite andb_false_r.
Qed.

Lemma simple_status_completed (h a : string) :
  simple_status h a = "completed" <-> Str.isdigit h = true /\ Str.isdigit a = true.
Proof.
  unfold simple_status.
  destruct (String.eqb h "--") eqn:Eh.
  - apply String.eqb_eq in Eh. subst h. simpl. split; [discriminate|].
    intros [H _]. discriminate.
  - destruct (String.eqb a "--") eqn:Ea.
    + apply String.eqb_eq in Ea. subst a. simpl. split; [discriminate|].
      intros [_ H]. discriminate.
    + simpl. destruct (Str.isdigit h), (Str.isdigit a); simpl; split;
        try discriminate; intuition discriminate.
Qed.

Lemma simple_status_scheduled (h a : string) :
  simple_status h a = "scheduled" <-> h = "--" \/ a = "--".
Proof.
  unfold simple_status.
  destruct (String.eqb h "--") eqn:Eh; simpl.
  - apply String.eqb_eq in Eh. split; auto.
  - apply String.eqb_neq in Eh. destruct (String.eqb a "--") eqn:Ea; simpl.
    + apply String.eqb_eq in Ea. split; auto.
    + apply String.eqb_neq in Ea.
      destruct (Str.isdigit h && Str.isdigit a); split;
        try discriminate; intros [H|H]; contradiction.
Qed.

(** A numeric score text comes from a score element. *)
Lemma isdigit_text_or (e : option node) :
  Str.isdigit (text_or "--" e) = true
  <-> exists x, e = Some x /\ Str.isdigit (get_text x) = true.
Proof.
  destruct e as [x|]; simpl.
  - split; [intros H; now exists x | intros (y & Hy & H); now injection Hy as ->].
  - split; [discriminate | intros (y & Hy & _); discriminate].
Qed.

(** The detector fires only on a marker that is in the container. *)
Lemma is_forfeit_marker_anywhere (c : node) :
  is_forfeit_of c = true -> marker_anywhere c = true.
Proof.
  unfold is_forfeit_of, forfeit_text_of, marker_anywhere, select_one.
  destruct (select SMALL_MUTED c) as [|m l]; simpl.
  - discriminate.
  - intros ->. reflexivity.
Qed.

(* ===================================================================== *)
(** ** Status of the emitted records *)
(* ===================================================================== *)

(** C1, as stated, fails: the container [Samples.late_marker] holds the text
    "Forfeit" in a muted element, but not in its first one, and its record
    comes out as "completed". *)
Lemma forfeit_marker_anywhere_counterexample :
  In (Some "2/15/2026", Samples.late_marker) (attempts Samples.late_marker_doc)
  /\ marker_anywhere Samples.late_marker = true
  /\ map status (fst (parse_games_html_with_dates Samples.late_marker_doc []))
     = ["completed"].
Proof. repeat split; simpl; auto. Qed.

(** C1 (amended): for every game container visited by
    [parse_games_html_with_dates], if the first muted element
    ([small.text-muted]) of the container, in document order, holds the
    text "forfeit" or "default" once lower-cased (anywhere in its text),
    then the emitted record has status "forfeit", whatever the scores. *)
Theorem forfeit_on_first_muted_marker
    (soup : node) (out : list string) (d : option string) (c m : node) (g : Game) :
  In (d, c) (attempts soup) ->
  select_one SMALL_MUTED c = Some m ->
  marks_forfeit (Str.lower (get_text m)) = true ->
  detailed_game d c = Appended g ->
  In g (fst (parse_games_html_with_dates soup out)) /\ status g = "forfeit".
Proof.
  intros Hin Hm Hmark Hg. split.
  - apply with_dates_in. now exists d, c.
  - destruct (detailed_game_appended _ _ _ Hg) as (h & a & _ & _ & _ & _ & Hs & _).
    rewrite Hs. unfold is_forfeit_of, forfeit_text_of. rewrite Hm, Hmark.
    apply classify_forfeit.
Qed.

Lemma forfeit_on_first_muted_marker_witness :
  In Samples.defaulted_record (fst (parse_games_html_with_dates Samples.scenario []))
  /\ status Samples.defaulted_record = "forfeit".
Proof.
  apply (forfeit_on_first_muted_marker Samples.scenario [] (Some "2/15/2026")
           Samples.defaulted (Samples.muted "Team A Default")).
  - simpl. auto.
  - reflexivity.
  - reflexivity.
  - reflexivity.
Defined.

(** C2, as stated, fails at both entry points: [parse_games_html] has no
    forfeit detector, and [parse_games_html_with_dates] reads the first
    muted element only; a played game that holds a forfeit marker comes out
    as "completed". *)
Lemma completed_iff_unmarked_counterexample :
  (In Samples.forfeited (select DIV_MATCH Samples.forfeited_doc)
   /\ marker_anywhere Samples.forfeited = true
   /\ map status (fst (parse_games_html Samples.forfeited_doc None [])) = ["completed"])
  /\ (In (Some "2/15/2026", Samples.late_marker) (attempts Samples.late_marker_doc)
      /\ marker_anywhere Samples.late_marker = true
      /\ map status (fst (parse_games_html_with_dates Samples.late_marker_doc []))
         = ["completed"]).
Proof. repeat split; simpl; auto. Qed.

(** C2 (amended): a record emitted by [parse_games_html_with_dates] has
    status "completed" if and only if both score elements are present with
    strictly numeric text and the forfeit detector, which reads the first
    muted element of the container, did not fire; a record emitted by
    [parse_games_html], which has no forfeit detector, has status
    "completed" if and only if both score elements are present with strictly
    numeric text. *)
Theorem completed_iff_numeric_and_undetected
    (soup : node) (date_str : option string) (out : list string) :
  (forall d c g,
      In (d, c) (attempts soup) -> detailed_game d c = Appended g ->
      In g (fst (parse_games_html_with_dates soup out))
      /\ (status g = "completed"
          <-> numeric_scores ANY_SCORE1 ANY_SCORE2 c /\ is_forfeit_of c = false))
  /\
  (forall c g,
      In c (select DIV_MATCH soup) ->
      simple_game (resolve_date soup date_str) c = Appended g ->
      In g (fst (parse_games_html soup date_str out))
      /\ (status g = "completed" <-> numeric_scores SCORE1 SCORE2 c)).
Proof.
  split.
  - intros d c g Hin Hg. split.
    + apply with_dates_in. now exists d, c.
    + destruct (detailed_game_appended _ _ _ Hg) as (h & a & _ & _ & _ & _ & Hs & _).
      rewrite Hs, classify_completed.
      unfold home_score_text_of, away_score_text_of, numeric_scores.
      rewrite !isdigit_text_or. split.
      * intros ((e1 & H1 & D1) & (e2 & H2 & D2) & Hf). split; trivial.
        now exists e1, e2.
      * intros ((e1 & e2 & H1 & H2 & D1 & D2) & Hf). repeat split; trivial.
        -- now exists e1.
        -- now exists e2.
  - intros c g Hin Hg. split.
    + apply plain_in. now exists c.
    + destruct (simple_game_appended _ _ _ Hg) as (h & a & _ & _ & _ & _ & Hs & _).
      rewrite Hs, simple_status_completed. unfold numeric_scores.
      rewrite !isdigit_text_or. split.
      * intros ((e1 & H1 & D1) & (e2 & H2 & D2)). now exists e1, e2.
      * intros (e1 & e2 & H1 & H2 & D1 & D2). split.
        -- now exists e1.
        -- now exists e2.
Qed.

Lemma completed_iff_numeric_and_undetected_witness :
  (In Samples.played_record (fst (parse_games_html_with_dates Samples.scenario []))
   /\ (status Samples.played_record = "completed"
       <-> numeric_scores ANY_SCORE1 ANY_SCORE2 Samples.played
           /\ is_forfeit_of Samples.played = false))
  /\ (In Samples.played_record
         (fst (parse_games_html Samples.scenario (Some "2/15/2026") []))
      /\ (status Samples.played_record = "completed"
          <-> numeric_scores SCORE1 SCORE2 Samples.played)).
Proof.
  split.
  - apply (proj1 (completed_iff_numeric_and_undetected
                    Samples.scenario (Some "2/15/2026") [])
             (Some "2/15/2026") Samples.played Samples.played_record).
    + simpl. auto.
    + reflexivity.
  - apply (proj2 (completed_iff_numeric_and_undetected
                    Samples.scenario (Some "2/15/2026") [])
             Samples.played Samples.played_record).
    + simpl. auto.
    + reflexivity.
Defined.

(** C3, as stated, fails: [parse_games_html] reports the game
    [Samples.partial], which has a home score and no away score element and
    no muted text at all, as "scheduled"; and
    [parse_games_html_with_dates] reports an unscored game as "scheduled"
    although a later muted element says "Forfeit". *)
Lemma scheduled_only_unscored_counterexample :
  (In Samples.partial (select DIV_MATCH Samples.partial_doc)
   /\ select_one SCORE1 Samples.partial = Some (Samples.score1 "21")
   /\ select_one SCORE2 Samples.partial = None
   /\ marker_anywhere Samples.partial = false
   /\ map status (fst (parse_games_html Samples.partial_doc None [])) = ["scheduled"])
  /\ (In (Some "2/15/2026", Samples.late_marker_unscored)
         (attempts Samples.late_marker_unscored_doc)
      /\ marker_anywhere Samples.late_marker_unscored = true
      /\ map status (fst (parse_games_html_with_dates Samples.late_marker_unscored_doc []))
         = ["scheduled"]).
Proof. repeat split; simpl; auto. Qed.

(** C3 (amended): a record emitted by [parse_games_html_with_dates] has
    status "scheduled" if and only if both score texts are the sentinel "--"
    (the text of an absent score element) and the forfeit detector, which
    reads the first muted element of the container, did not fire; when
    exactly one of the two score texts is "--" and the container holds no
    forfeit marker, the status is "unknown". *)
Theorem scheduled_iff_unscored_and_undetected
    (soup : node) (out : list string) (d : option string) (c : node) (g : Game) :
  In (d, c) (attempts soup) ->
  detailed_game d c = Appended g ->
  In g (fst (parse_games_html_with_dates soup out))
  /\ (status g = "scheduled"
      <-> home_score_text_of c = "--" /\ away_score_text_of c = "--"
          /\ is_forfeit_of c = false)
  /\ (marker_anywhere c = false ->
      (home_score_text_of c = "--" /\ away_score_text_of c <> "--")
      \/ (home_score_text_of c <> "--" /\ away_score_text_of c = "--") ->
      status g = "unknown").
Proof.
  intros Hin Hg. split; [|split].
  - apply with_dates_in. now exists d, c.
  - destruct (detailed_game_appended _ _ _ Hg) as (h & a & _ & _ & _ & _ & Hs & _).
    rewrite Hs. apply classify_scheduled.
  - intros Hno Hone.
    destruct (detailed_game_appended _ _ _ Hg) as (h & a & _ & _ & _ & _ & Hs & _).
    rewrite Hs.
    destruct (is_forfeit_of c) eqn:Hf.
    + apply is_forfeit_marker_anywhere in Hf. congruence.
    + now apply classify_one_sided.
Qed.

Lemma scheduled_iff_unscored_and_undetected_witness :
  In Samples.partial_record (fst (parse_games_html_with_dates Samples.partial_day_doc []))
  /\ (status Samples.partial_record = "scheduled"
      <-> home_score_text_of Samples.partial = "--"
          /\ away_score_text_of Samples.partial = "--"
          /\ is_forfeit_of Samples.partial = false)
  /\ status Samples.partial_record = "unknown".
Proof.
  assert (Hin : In (Some "2/15/2026", Samples.partial)
                   (attempts Samples.partial_day_doc)) by (simpl; auto).
  destruct (scheduled_iff_unscored_and_undetected Samples.partial_day_doc []
              (Some "2/15/2026") Samples.partial Samples.partial_record
              Hin eq_refl) as (H1 & H2 & H3).
  split; [exact H1|]. split; [exact H2|].
  apply H3.
  - reflexivity.
  - right. split; [discriminate | reflexivity].
Defined.

(* ===================================================================== *)
(** ** Containers without a team element *)
(* ===================================================================== *)

Lemma emitted_count {A : Type} (f : A -> outcome) (l : list A) :
  length (flat_map (fun x => emitted (f x)) l)
  = length l - length (filter (fun x => skipped (f x)) l).
Proof.
  assert (H : length (flat_map (fun x => emitted (f x)) l)
              + length (filter (fun x => skipped (f x)) l) = length l).
  { induction l as [|x l IH]; simpl; trivial.
    destruct (f x); simpl; lia. }
  lia.
Qed.

(** C4, as stated, fails: a team link without text is a resolvable element,
    so both entry points emit the record of [Samples.nameless] with an empty
    [home_team]. *)
Lemma no_empty_team_field_counterexample :
  map home_team (fst (parse_games_html Samples.nameless_doc None [])) = [""]
  /\ map home_team (fst (parse_games_html_with_dates Samples.nameless_day_doc [])) = [""].
Proof. split; reflexivity. Qed.

(** C4 (amended): at both entry points a game container in which no home
    team element or no away team element is found is discarded, and only
    such a container is; the number of records is the number of containers
    visited minus the number of discarded ones; and the [home_team] and
    [away_team] of every record are the stripped texts of the two team
    elements found in its container (texts that are empty when the element
    holds no text). *)
Theorem containers_without_team_element_discarded
    (soup : node) (date_str : option string) (out : list string) :
  (length (fst (parse_games_html_with_dates soup out))
   = length (attempts soup)
     - length (filter (fun a => skipped (detailed_game (fst a) (snd a))) (attempts soup))
   /\ (forall d c,
          skipped (detailed_game d c) = true
          <-> home_team_elem_of c = None \/ away_team_elem_of c = None)
   /\ (forall g, In g (fst (parse_games_html_with_dates soup out)) ->
         exists d c h a,
           In (d, c) (attempts soup)
           /\ home_team_elem_of c = Some h /\ away_team_elem_of c = Some a
           /\ home_team g = get_text h /\ away_team g = get_text a))
  /\
  (length (fst (parse_games_html soup date_str out))
   = length (select DIV_MATCH soup)
     - length (filter (fun c => skipped (simple_game (resolve_date soup date_str) c))
                      (select DIV_MATCH soup))
   /\ (forall d c,
          skipped (simple_game d c) = true
          <-> select_one TEAMHOME c = None \/ select_one TEAMAWAY c = None)
   /\ (forall g, In g (fst (parse_games_html soup date_str out)) ->
         exists c h a,
           In c (select DIV_MATCH soup)
           /\ select_one TEAMHOME c = Some h /\ select_one TEAMAWAY c = Some a
           /\ home_team g = get_text h /\ away_team g = get_text a)).
Proof.
  split; (split; [|split]).
  - rewrite with_dates_games. apply emitted_count.
  - intros d c. apply detailed_game_skipped.
  - intros g Hg. apply with_dates_in in Hg. destruct Hg as (d & c & Hin & Hg).
    destruct (detailed_game_appended _ _ _ Hg) as (h & a & Hh & Ha & Th & Ta & _).
    now exists d, c, h, a.
  - rewrite plain_games. apply emitted_count.
  - intros d c. apply simple_game_skipped.
  - intros g Hg. apply plain_in in Hg. destruct Hg as (c & Hin & Hg).
    destruct (simple_game_appended _ _ _ Hg) as (h & a & Hh & Ha & Th & Ta & _).
    now exists c, h, a.
Qed.

Lemma containers_without_team_element_discarded_witness :
  (length (fst (parse_games_html_with_dates Samples.mixed_doc [])) = 3 - 1
   /\ exists d c h a,
        In (d, c) (attempts Samples.mixed_doc)
        /\ home_team_elem_of c = Some h /\ away_team_elem_of c = Some a
        /\ home_team Samples.played_record = get_text h
        /\ away_team Samples.played_record = get_text a)
  /\ (length (fst (parse_games_html Samples.mixed_doc None [])) = 3 - 1
      /\ exists c h a,
           In c (select DIV_MATCH Samples.mixed_doc)
           /\ select_one TEAMHOME c = Some h /\ select_one TEAMAWAY c = Some a
           /\ home_team Samples.played_record = get_text h
           /\ away_team Samples.played_record = get_text a).
Proof.
  destruct (containers_without_team_element_discarded Samples.mixed_doc None [])
    as ((L1 & _ & E1) & (L2 & _ & E2)).
  split; split.
  - exact L1.
  - apply E1. simpl. auto.
  - exact L2.
  - apply (E2 (Samples.record "g1" "Alpha" "Beta" "21" "14" "completed" None)).
    simpl. auto.
Defined.

(* ===================================================================== *)
(** ** The location resolver *)
(* ===================================================================== *)

(** C7: in the detailed layout the location of a game container is
    "{facility}, {court}" when a facility element and a court element are
    both present, the facility text when only the facility element is
    present, and absent otherwise, also when only the court element is
    present; the record carries this location. *)
Theorem location_resolver (c : node) :
  (forall f k,
      select_one FACILITY c = Some f -> select_one COURT c = Some k ->
      location_of c = Some (get_text f ++ ", " ++ get_text k))
  /\ (forall f,
         select_one FACILITY c = Some f -> select_one COURT c = None ->
         location_of c = Some (get_text f))
  /\ (select_one FACILITY c = None -> location_of c = None)
  /\ (forall d g, detailed_game d c = Appended g -> location g = location_of c).
Proof.
  unfold location_of. repeat split.
  - intros f k -> ->. reflexivity.
  - intros f -> ->. reflexivity.
  - intros ->. reflexivity.
  - intros d g Hg.
    destruct (detailed_game_appended _ _ _ Hg) as (h & a & _ & _ & _ & _ & _ & Hl & _).
    exact Hl.
Qed.

Lemma location_resolver_witness :
  location_of Samples.located = Some "Court Complex, Court 3"
  /\ location_of Samples.facility_only = Some "Court Complex"
  /\ location_of Samples.court_only = None
  /\ location Samples.located_record = location_of Samples.located.
Proof.
  split; [|split; [|split]].
  - exact (proj1 (location_resolver Samples.located)
             (Samples.facility "Court Complex") (Samples.court "Court 3")
             eq_refl eq_refl).
  - exact (proj1 (proj2 (location_resolver Samples.facility_only))
             (Samples.facility "Court Complex") eq_refl eq_refl).
  - exact (proj1 (proj2 (proj2 (location_resolver Samples.court_only))) eq_refl).
  - exact (proj2 (proj2 (proj2 (location_resolver Samples.located)))
             (Some "2/15/2026") Samples.located_record eq_refl).
Defined.

(* ===================================================================== *)
(** ** Failure isolation of the extraction *)
(* ===================================================================== *)



Lemma simple_game_present (d : option string) (c h a : node) :
  select_one TEAMHOME c = Some h -> select_one TEAMAWAY c = Some a ->
  exists g, simple_game d c = Appended g
            /\ home_team g = get_text h /\ away_team g = get_text a /\ date g = d.
Proof.
  intros Hh Ha. unfold simple_game. rewrite Hh, Ha.
  eexists. split; [reflexivity|]. simpl. repeat split.
Qed.






(* ===================================================================== *)
(** ** The date of a fragment without day sections *)
(* ===================================================================== *)

Lemma resolve_date_supplied (soup : node) (date_str : option string) :
  truthy date_str = true -> resolve_date soup date_str = date_str.
Proof.
  intros H. unfold resolve_date. cbv zeta. rewrite H. cbv iota. now rewrite H.
Qed.

Lemma plain_dates (soup : node) (date_str : option string) (out : list string) (g : Game) :
  In g (fst (parse_games_html soup date_str out)) -> date g = resolve_date soup date_str.
Proof.
  intros Hg. apply plain_in in Hg. destruct Hg as (c & _ & Hg).
  destruct (simple_game_appended _ _ _ Hg) as (h & a & _ & _ & _ & _ & _ & Hd).
  exact Hd.
Qed.

(** Without day sections [parse_games_html_with_dates] has nothing to
    visit. *)
Lemma with_dates_no_sections (soup : node) (out : list string) :
  select DIV_GAMEDAY soup = [] -> fst (parse_games_html_with_dates soup out) = [].
Proof.
  intros H. rewrite with_dates_games. unfold attempts. now rewrite H.
Qed.

(** C9, as stated, fails for [parse_games_html_with_dates]: it takes no
    date from its caller, and on [Samples.dated_plain_doc], a fragment
    without day sections that holds a complete game container, it returns no
    record at all, where [parse_games_html] returns the record of that
    container with the date passed. *)
Lemma fragment_is_one_day_counterexample :
  select DIV_GAMEDAY Samples.dated_plain_doc = []
  /\ In Samples.played (select DIV_MATCH Samples.dated_plain_doc)
  /\ fst (parse_games_html_with_dates Samples.dated_plain_doc []) = []
  /\ fst (parse_games_html Samples.dated_plain_doc (Some "3/1/2026") [])
     = [Samples.played_march_record].
Proof. repeat split. simpl. auto. Qed.

(** C9 (amended): [parse_games_html] treats the whole fragment as one day,
    with or without day sections: every game container of the fragment
    that has both team elements gives a record, and every record carries
    one and the same date; this date is the date passed by the caller
    whenever one was passed (a non-empty string), and it differs from the
    date passed only when none was passed, in which case it is the
    in-markup fallback ([#pNowDate], then the first [gameday] attribute).
    [parse_games_html_with_dates] takes no date from its caller and returns
    no record for a fragment without day sections. *)
Theorem external_date_on_every_record
    (soup : node) (date_str : option string) (out : list string) :
  (forall c h a,
      In c (select DIV_MATCH soup) ->
      select_one TEAMHOME c = Some h -> select_one TEAMAWAY c = Some a ->
      exists g, simple_game (resolve_date soup date_str) c = Appended g
                /\ In g (fst (parse_games_html soup date_str out))
                /\ date g = resolve_date soup date_str
                /\ home_team g = get_text h /\ away_team g = get_text a)
  /\ (forall g, In g (fst (parse_games_html soup date_str out)) ->
                date g = resolve_date soup date_str)
  /\ (forall s, date_str = Some s -> s <> "" -> resolve_date soup date_str = Some s)
  /\ (resolve_date soup date_str <> date_str -> date_str = None \/ date_str = Some "")
  /\ (truthy date_str = false ->
      resolve_date soup date_str
      = let from_page := text_opt (select_one P_NOW_DATE soup) in
        if truthy from_page then from_page
        else match select_one ANY_GAMEDAY soup with
             | Some game_day_elem => get game_day_elem "gameday"
             | None => from_page
             end)
  /\ (select DIV_GAMEDAY soup = [] ->
      fst (parse_games_html_with_dates soup out) = []).
Proof.
  split; [|split; [|split; [|split; [|split]]]].
  - intros c h a Hin Hh Ha.
    destruct (simple_game_present (resolve_date soup date_str) c h a Hh Ha)
      as (g & Hg & Th & Ta & Hd).
    exists g. repeat split; trivial. apply plain_in. now exists c.
  - intros g. apply plain_dates.
  - intros s -> Hs. apply resolve_date_supplied. simpl.
    apply String.eqb_neq in Hs. now rewrite Hs.
  - intros Hne. destruct date_str as [s|]; [|now left].
    destruct (String.eqb s "") eqn:Es.
    + apply String.eqb_eq in Es. subst. now right.
    + exfalso. apply Hne. apply resolve_date_supplied. simpl. now rewrite Es.
  - intros Hf. unfold resolve_date. cbv zeta. rewrite Hf. reflexivity.
  - apply with_dates_no_sections.
Qed.

Lemma external_date_on_every_record_witness :
  (exists g, In g (fst (parse_games_html Samples.dated_plain_doc (Some "3/1/2026") []))
             /\ date g = Some "3/1/2026" /\ home_team g = "Alpha")
  /\ resolve_date Samples.dated_plain_doc None = Some "2/20/2026"
  /\ fst (parse_games_html_with_dates Samples.dated_plain_doc []) = [].
Proof.
  destruct (external_date_on_every_record Samples.dated_plain_doc (Some "3/1/2026") [])
    as (Hrec & _ & Hdate & _ & _ & Hnone).
  destruct (external_date_on_every_record Samples.dated_plain_doc None [])
    as (_ & _ & _ & _ & Hfall & _).
  split; [|split].
  - destruct (Hrec Samples.played (Samples.home "Alpha") (Samples.away "Beta"))
      as (g & _ & Hin & Hd & Hh & _); [simpl; auto | reflexivity | reflexivity |].
    exists g. split; [exact Hin|]. split.
    + rewrite Hd. apply (Hdate "3/1/2026"); [reflexivity | discriminate].
    + rewrite Hh. reflexivity.
  - rewrite (Hfall eq_refl). reflexivity.
  - apply Hnone. reflexivity.
Defined.

(* ===================================================================== *)
(** ** The day aggregator *)
(* ===================================================================== *)

(** The records of one day do not depend on what was printed before. *)
Lemma fetch_day_games_out (BeautifulSoup : string -> node) (post : string -> response)
    (date_str : string) (out : list string) :
  fst (fetch_games_for_specific_date BeautifulSoup post date_str out)
  = fst (fetch_games_for_specific_date BeautifulSoup post date_str []).
Proof.
  unfold fetch_games_for_specific_date.
  destruct (post date_str) as [e|[html|]]; simpl; trivial.
  destruct (negb (String.eqb html "")); trivial.
  now rewrite !with_dates_games.
Qed.

(** The [while] loop runs once per day up to [end_date], in ascending
    order, and then stops. *)
Lemma fetch_loop_games (BeautifulSoup : string -> node) (post : string -> response)
    (strftime : Z -> string) (n : nat) :
  forall (end_date current_date : Z) (st : list Game * list string),
    Z.to_nat (end_date - current_date + 1) = n ->
    fst (fetch_loop BeautifulSoup post strftime end_date current_date st)
    = app (fst st)
          (flat_map (fun d => fst (fetch_games_for_specific_date BeautifulSoup post
                                     (date_str_of strftime d) []))
                    (days_from current_date n)).
Proof.
  induction n as [|k IH]; intros end_date cur st Hn; simp fetch_loop;
    destruct (Z_le_gt_dec cur end_date) as [Hle|Hgt]; simpl; try lia.
  - now rewrite app_nil_r.
  - destruct (fetch_games_for_specific_date BeautifulSoup post
                (date_str_of strftime cur) (snd st)) as [day_games out] eqn:Hday.
    assert (Hg : day_games = fst (fetch_games_for_specific_date BeautifulSoup post
                                    (date_str_of strftime cur) [])).
    { rewrite <- (fetch_day_games_out BeautifulSoup post _ (snd st)), Hday.
      reflexivity. }
    rewrite IH by lia. rewrite <- Hg.
    destruct day_games; simpl; [reflexivity|].
    now rewrite <- app_assoc.
Qed.

Lemma window_days_from (today : Z) : window today = days_from (today - 3) 11.
Proof. unfold window. simpl. repeat (f_equal; try lia). Qed.

Lemma fetch_all_games_days (BeautifulSoup : string -> node) (post : string -> response)
    (strftime isoformat : Z -> string) (today : Z) (out : list string) :
  fst (fetch_all_games BeautifulSoup post strftime isoformat today out)
  = flat_map (fun d => fst (fetch_games_for_specific_date BeautifulSoup post
                              (date_str_of strftime d) []))
             (window today).
Proof.
  rewrite window_days_from. unfold fetch_all_games.
  destruct (fetch_loop _ _ _ _ _ _) as [all_games out'] eqn:Hloop.
  cbn [fst]. change all_games with (fst (all_games, out')). rewrite <- Hloop.
  rewrite (fetch_loop_games BeautifulSoup post strftime 11) by lia.
  reflexivity.
Qed.

(** C6: [fetch_all_games] asks for the eleven days from three days before
    today to seven days after today, each of them once and in ascending
    order, and returns the records of these days in that order; a day whose
    request fails contributes no record and the later days are still asked
    for; when the request of every day fails the result is the empty list. *)
Theorem day_aggregation (BeautifulSoup : string -> node) (post : string -> response)
    (strftime isoformat : Z -> string) (today : Z) (out : list string) :
  (forall d, In d (window today) <-> (today - 3 <= d <= today + 7)%Z)
  /\ StronglySorted Z.lt (window today)
  /\ fst (fetch_all_games BeautifulSoup post strftime isoformat today out)
     = flat_map (fun d => fst (fetch_games_for_specific_date BeautifulSoup post
                                 (date_str_of strftime d) []))
                (window today)
  /\ (forall date_str e out',
         post date_str = Failed e ->
         fst (fetch_games_for_specific_date BeautifulSoup post date_str out') = [])
  /\ ((forall d, In d (window today) ->
                 exists e, post (date_str_of strftime d) = Failed e) ->
      fst (fetch_all_games BeautifulSoup post strftime isoformat today out) = []).
Proof.
  split; [|split; [|split; [|split]]].
  - intros d. unfold window. simpl. lia.
  - unfold window.
    repeat (constructor; [|repeat (constructor; try lia)]). constructor.
  - apply fetch_all_games_days.
  - intros date_str e out' H. unfold fetch_games_for_specific_date. now rewrite H.
  - intros Hall. rewrite fetch_all_games_days.
    induction (window today) as [|d l IH]; simpl; trivial.
    destruct (Hall d (or_introl eq_refl)) as [e He].
    unfold fetch_games_for_specific_date at 1. rewrite He. simpl.
    apply IH. intros d' Hd'. apply Hall. now right.
Qed.

Lemma day_aggregation_witness :
  fst (fetch_games_for_specific_date Samples.parser Samples.up_once "2/16/2026" []) = []
  /\ fst (fetch_all_games Samples.parser Samples.down Samples.mdY Samples.iso 0 []) = []
  /\ fst (fetch_all_games Samples.parser Samples.up_once Samples.mdY Samples.iso 0 [])
     = [Samples.played_record; Samples.defaulted_record].
Proof.
  destruct (day_aggregation Samples.parser Samples.down Samples.mdY Samples.iso 0 [])
    as (_ & _ & _ & _ & Hdown).
  destruct (day_aggregation Samples.parser Samples.up_once Samples.mdY Samples.iso 0 [])
    as (_ & _ & Hup & Hday & _).
  split; [|split].
  - apply (Hday "2/16/2026" "timeout"). reflexivity.
  - apply Hdown. intros d _. exists "timeout". reflexivity.
  - rewrite Hup. reflexivity.
Defined.

(* ===================================================================== *)
(** ** Document order of the attempts *)
(* ===================================================================== *)

Lemma node_induction (P : node -> Prop) :
  (forall s, P (NavigableString s)) ->
  (forall s, P (Comment s)) ->
  (forall k s, P (ContainerString k s)) ->
  (forall name cs a kids, Forall P kids -> P (Tag name cs a kids)) ->
  forall n, P n.
Proof.
  intros Hs Hc Hk Ht. fix IH 1. intros [s|s|k s|name cs a kids].
  - apply Hs.
  - apply Hc.
  - apply Hk.
  - apply Ht. induction kids as [|k kids IHk]; constructor; [apply IH | exact IHk].
Qed.

Lemma descendants_below (n : node) :
  forall i m, nth_error (descendants n) i = Some m ->
              exists rest, skipn (S i) (descendants n) = (descendants m ++ rest)%list.
Proof.
  induction n as [s|s|k s|name cs a kids IH] using node_induction; intros i m Hi;
    try (destruct i; discriminate).
  cbn [descendants] in *. revert i Hi.
  induction IH as [|k kids Hk _ IHk]; intros i Hi.
  - destruct i; discriminate.
  - cbn [flat_map app] in *. destruct i as [|i].
    + injection Hi as <-. rewrite skipn_cons, skipn_O. eauto.
    + cbn [nth_error] in Hi. rewrite skipn_cons.
      destruct (Nat.lt_ge_cases i (length (descendants k))) as [Hlt|Hge].
      * rewrite nth_error_app1 in Hi by exact Hlt.
        destruct (Hk i m Hi) as [rest Hr].
        rewrite skipn_app, Hr.
        replace (S i - length (descendants k)) with 0 by lia.
        rewrite skipn_O, <- app_assoc. eauto.
      * rewrite nth_error_app2 in Hi by exact Hge.
        destruct (IHk _ Hi) as [rest Hr].
        rewrite skipn_app, skipn_all2 by lia.
        replace (S i - length (descendants k)) with (S (i - length (descendants k))) by lia.
        rewrite Hr. exists rest. reflexivity.
Qed.

(** Positions in document order. *)

Lemma indexed_from_cons (off : nat) (x : node) (l : list node) :
  indexed_from off (x :: l) = (off, x) :: indexed_from (S off) l.
Proof. reflexivity. Qed.

Lemma indexed_from_app (off : nat) (l1 l2 : list node) :
  indexed_from off (l1 ++ l2)
  = (indexed_from off l1 ++ indexed_from (off + length l1) l2)%list.
Proof.
  revert off. induction l1 as [|x l1 IH]; intros off.
  - cbn [app length]. now rewrite Nat.add_0_r.
  - cbn [app length]. rewrite !indexed_from_cons, IH. cbn [app].
    now rewrite Nat.add_succ_r.
Qed.

Lemma indexed_from_in (off : nat) (l : list node) (j : nat) (c : node) :
  In (j, c) (indexed_from off l) ->
  off <= j < off + length l /\ nth_error l (j - off) = Some c.
Proof.
  revert off. induction l as [|x l IH]; intros off H.
  - destruct H.
  - rewrite indexed_from_cons in H. destruct H as [H|H].
    + injection H as <- <-. rewrite Nat.sub_diag. cbn [length nth_error]. split; [lia|trivial].
    + apply IH in H. destruct H as [Hb Hn]. cbn [length]. split; [lia|].
      replace (j - off) with (S (j - S off)) by lia. exact Hn.
Qed.

Lemma filter_indexed_snd (f : node -> bool) (off : nat) (l : list node) :
  map snd (filter (fun p => f (snd p)) (indexed_from off l)) = filter f l.
Proof.
  revert off. induction l as [|x l IH]; intros off; trivial.
  rewrite indexed_from_cons. cbn [filter snd]. destruct (f x); cbn [map snd]; now rewrite IH.
Qed.

Lemma filter_indexed_sorted (f : node -> bool) (off : nat) (l : list node) :
  StronglySorted lt (map fst (filter (fun p => f (snd p)) (indexed_from off l))).
Proof.
  revert off. induction l as [|x l IH]; intros off.
  - constructor.
  - rewrite indexed_from_cons. cbn [filter snd]. destruct (f x); [|apply IH].
    cbn [map fst]. constructor; [apply IH|].
    apply Forall_forall. intros j Hj. apply in_map_iff in Hj.
    destruct Hj as [[j' c] [<- Hin]]. apply filter_In in Hin. destruct Hin as [Hin _].
    apply indexed_from_in in Hin. cbn [fst]. lia.
Qed.

Lemma select_at_select (sel : selector) (off : nat) (n : node) :
  map snd (select_at sel off n) = select sel n.
Proof. apply filter_indexed_snd. Qed.

Lemma select_at_in (sel : selector) (off : nat) (n : node) (j : nat) (c : node) :
  In (j, c) (select_at sel off n) ->
  off <= j < off + length (descendants n)
  /\ nth_error (descendants n) (j - off) = Some c /\ matches sel c = true.
Proof.
  intros H. apply filter_In in H. destruct H as [H Hm].
  apply indexed_from_in in H. tauto.
Qed.

Lemma sorted_app (l1 l2 : list nat) :
  StronglySorted lt l1 -> StronglySorted lt l2 ->
  (forall x y, In x l1 -> In y l2 -> x < y) ->
  StronglySorted lt (l1 ++ l2).
Proof.
  intros H1 H2 H. induction H1 as [|x l1 Hs IH Hx]; cbn [app]; trivial.
  constructor.
  - apply IH. intros a b Ha Hb. apply H; [now right | trivial].
  - apply Forall_app. split; trivial.
    apply Forall_forall. intros y Hy. apply H; [now left | trivial].
Qed.

Lemma sorted_nodup (l : list nat) : StronglySorted lt l -> NoDup l.
Proof.
  induction 1 as [|x l Hs IH Hx]; constructor; trivial.
  intros Hin. rewrite Forall_forall in Hx. specialize (Hx x Hin). lia.
Qed.

Lemma map_flat_map {A B C : Type} (f : B -> C) (g : A -> list B) (l : list A) :
  map f (flat_map g l) = flat_map (fun x => map f (g x)) l.
Proof.
  induction l as [|x l IH]; trivial. cbn [flat_map]. now rewrite map_app, IH.
Qed.

Lemma attempts_at_attempts (soup : node) : map snd (attempts_at soup) = attempts soup.
Proof.
  unfold attempts_at, attempts.
  rewrite map_flat_map, <- (select_at_select DIV_GAMEDAY 0 soup), flat_map_map.
  apply flat_map_ext. intros [i s]. cbn [fst snd].
  rewrite map_map. cbn [snd]. rewrite <- (select_at_select DIV_MATCH (S i) s), map_map.
  reflexivity.
Qed.

Lemma attempts_at_positions (soup : node) (j : nat) (d : option string) (c : node) :
  In (j, (d, c)) (attempts_at soup) -> nth_error (descendants soup) j = Some c.
Proof.
  unfold attempts_at. intros H. apply in_flat_map in H.
  destruct H as [[i s] [Hs H]]. cbn [fst snd] in H.
  apply in_map_iff in H. destruct H as [[j' c'] [E H]]. cbn [fst snd] in E.
  injection E as -> _ ->.
  apply select_at_in in Hs. destruct Hs as (_ & Hs & _). rewrite Nat.sub_0_r in Hs.
  apply select_at_in in H. destruct H as (Hb & H & _).
  destruct (descendants_below soup i s Hs) as [rest Hr].
  replace j with (S i + (j - S i)) by lia.
  rewrite <- nth_error_skipn, Hr.
  rewrite nth_error_app1 by lia. exact H.
Qed.

Lemma filter_indexed_nil (f : node -> bool) (off : nat) (l : list node) :
  filter f l = [] -> filter (fun p => f (snd p)) (indexed_from off l) = [].
Proof.
  intros H. apply (f_equal (@length node)) in H.
  rewrite <- (filter_indexed_snd f off l), length_map in H.
  now apply length_zero_iff_nil.
Qed.

(** The attempts made from a list of elements that stand at the positions
    [off], [off + 1], ... *)
Lemma blocks_sorted (n : nat) :
  forall (D : list node) (off : nat),
    length D <= n ->
    (forall i m, nth_error D i = Some m ->
                 exists rest, skipn (S i) D = (descendants m ++ rest)%list) ->
    (forall s, In s D -> matches DIV_GAMEDAY s = true -> select DIV_GAMEDAY s = []) ->
    let blocks :=
      flat_map (fun p => map (fun q => (fst q, (get (snd p) "gameday", snd q)))
                             (select_at DIV_MATCH (S (fst p)) (snd p)))
               (filter (fun p => matches DIV_GAMEDAY (snd p)) (indexed_from off D)) in
    StronglySorted lt (map fst blocks) /\ (forall j, In j (map fst blocks) -> off < j).
Proof.
  induction n as [|n IH]; intros D off Hlen Hbelow Hflat blocks; subst blocks.
  - destruct D; [|cbn [length] in Hlen; lia]. split; [constructor | intros j []].
  - destruct D as [|x D']; [split; [constructor | intros j []]|].
    rewrite indexed_from_cons. cbn [filter snd].
    destruct (matches DIV_GAMEDAY x) eqn:Hx.
    + destruct (Hbelow 0 x eq_refl) as [rest Hr].
      rewrite skipn_cons, skipn_O in Hr. subst D'.
      rewrite indexed_from_app, filter_app.
      rewrite (filter_indexed_nil (matches DIV_GAMEDAY) (S off) (descendants x))
        by (apply Hflat; [now left | exact Hx]).
      cbn [app flat_map fst snd]. rewrite map_app, map_map. cbn [fst].
      destruct (IH rest (S off + length (descendants x))) as [Hs Hlow].
      * cbn [length] in Hlen. rewrite length_app in Hlen. lia.
      * intros i m Hi.
        destruct (Hbelow (S (length (descendants x) + i)) m) as [r Hr].
        { cbn [nth_error]. rewrite nth_error_app2 by lia.
          now replace (length (descendants x) + i - length (descendants x)) with i by lia. }
        exists r. rewrite <- Hr, skipn_cons, skipn_app.
        rewrite (skipn_all2 (n:=S (length (descendants x) + i)) (descendants x)) by lia.
        now replace (S (length (descendants x) + i) - length (descendants x))
          with (S i) by lia.
      * intros s Hin. apply Hflat. right. apply in_or_app. now right.
      * split.
        -- apply sorted_app; trivial.
           ++ apply filter_indexed_sorted.
           ++ intros a b Ha Hb. apply Hlow in Hb.
              apply in_map_iff in Ha. destruct Ha as [[a' c] [<- Ha]].
              apply select_at_in in Ha. cbn [fst]. lia.
        -- intros j Hj. apply in_app_or in Hj. destruct Hj as [Hj|Hj].
           ++ apply in_map_iff in Hj. destruct Hj as [[a' c] [<- Ha]].
              apply select_at_in in Ha. cbn [fst]. lia.
           ++ apply Hlow in Hj. lia.
    + destruct (IH D' (S off)) as [Hs Hlow].
      * cbn [length] in Hlen. lia.
      * intros i m Hi. destruct (Hbelow (S i) m Hi) as [r Hr].
        exists r. now rewrite <- Hr, (skipn_cons (S i)).
      * intros s Hin. apply Hflat. now right.
      * split; trivial. intros j Hj. apply Hlow in Hj. lia.
Qed.

Lemma no_nested_sections_flat (soup : node) :
  no_nested_sections soup = true ->
  forall s, In s (descendants soup) -> matches DIV_GAMEDAY s = true ->
            select DIV_GAMEDAY s = [].
Proof.
  unfold no_nested_sections. intros H s Hin Hm.
  rewrite forallb_forall in H. specialize (H s).
  destruct (select DIV_GAMEDAY s); trivial.
  assert (false = true); [|discriminate].
  apply H. apply filter_In. now split.
Qed.

Lemma attempts_at_sorted (soup : node) :
  no_nested_sections soup = true -> StronglySorted lt (map fst (attempts_at soup)).
Proof.
  intros H.
  apply (blocks_sorted (length (descendants soup)) (descendants soup) 0).
  - lia.
  - apply descendants_below.
  - now apply no_nested_sections_flat.
Qed.

(** C8, as stated, fails: in [Samples.nested_doc] a day section lies inside
    another one; the only game container of the document, at position 2, is
    visited once for each of the two sections and its record is emitted
    twice. *)
Lemma no_second_attempt_counterexample :
  length (select DIV_MATCH Samples.nested_doc) = 1
  /\ map fst (attempts_at Samples.nested_doc) = [2; 2]
  /\ map game_id (fst (parse_games_html_with_dates Samples.nested_doc [])) = ["g1"; "g1"]
  /\ ~ NoDup (map fst (attempts_at Samples.nested_doc)).
Proof.
  repeat split. intros H. inversion H as [|x l Hx _]. apply Hx. now left.
Qed.

(** C8 (amended): [parse_games_html_with_dates] visits the day sections in
    document order and, within each section, the game containers in document
    order, and returns the records in the order of these visits; when no
    day section lies inside another day section, the containers visited
    stand at strictly increasing positions of the document, so the whole
    output follows document order and no container is visited twice. *)
Theorem document_order_without_nested_sections (soup : node) (out : list string) :
  map snd (attempts_at soup) = attempts soup
  /\ fst (parse_games_html_with_dates soup out)
     = flat_map (fun a => emitted (detailed_game (fst a) (snd a))) (attempts soup)
  /\ (forall j d c, In (j, (d, c)) (attempts_at soup) ->
                    nth_error (descendants soup) j = Some c)
  /\ StronglySorted lt (map fst (select_at DIV_GAMEDAY 0 soup))
  /\ (forall i s, In (i, s) (select_at DIV_GAMEDAY 0 soup) ->
                  StronglySorted lt (map fst (select_at DIV_MATCH (S i) s)))
  /\ (no_nested_sections soup = true ->
      StronglySorted lt (map fst (attempts_at soup))
      /\ NoDup (map fst (attempts_at soup))).
Proof.
  split; [|split; [|split; [|split; [|split]]]].
  - apply attempts_at_attempts.
  - apply with_dates_games.
  - apply attempts_at_positions.
  - apply filter_indexed_sorted.
  - intros i s _. apply filter_indexed_sorted.
  - intros H. split.
    + now apply attempts_at_sorted.
    + now apply sorted_nodup, attempts_at_sorted.
Qed.

Lemma document_order_without_nested_sections_witness :
  nth_error (descendants Samples.two_days_doc) 11 = Some Samples.defaulted
  /\ StronglySorted lt (map fst (select_at DIV_MATCH 1 (Samples.day "2/15/2026"
                                   [Samples.played; Samples.defaulted])))
  /\ StronglySorted lt (map fst (attempts_at Samples.two_days_doc))
  /\ NoDup (map fst (attempts_at Samples.two_days_doc)).
Proof.
  destruct (document_order_without_nested_sections Samples.two_days_doc [])
    as (_ & _ & Hpos & _ & Hsec & Hall).
  split; [|split].
  - apply (Hpos 11 (Some "2/15/2026")). simpl. auto.
  - apply (Hsec 0). simpl. auto.
  - apply Hall. reflexivity.
Defined.

(* ===================================================================== *)
(** ** Further properties of the resolvers, the requests and the endpoints *)
(* ===================================================================== *)

Lemma classify_forfeit_iff (h a : string) (f : bool) :
  status_of (classify h a f) = "forfeit" <-> f = true.
Proof.
  unfold classify.
  destruct (String.eqb h "--" && String.eqb a "--"),
           (Str.isdigit h && Str.isdigit a), f; simpl;
    split; trivial; discriminate.
Qed.

Lemma classify_unknown (h a : string) (f : bool) :
  status_of (classify h a f) = "unknown"
  <-> f = false /\ ~ (h = "--" /\ a = "--")
      /\ ~ (Str.isdigit h = true /\ Str.isdigit a = true).
Proof.
  unfold classify.
  destruct (String.eqb h "--") eqn:Eh; destruct (String.eqb a "--") eqn:Ea;
    try (apply String.eqb_eq in Eh); try (apply String.eqb_eq in Ea);
    subst; simpl.
  - destruct f; simpl; split; try discriminate; intros (_ & H & _); try discriminate;
      exfalso; apply H; auto.
  - rewrite String.eqb_neq in Ea.
    destruct f; simpl; split; try discriminate; try (intros (H & _); discriminate).
    + intros _. repeat split; trivial; intros [H1 H2]; [contradiction | discriminate].
    + trivial.
  - rewrite String.eqb_neq in Eh. rewrite andb_false_r.
    destruct f; simpl; split; try discriminate; try (intros (H & _); discriminate).
    + intros _. repeat split; trivial; intros [H1 H2]; [contradiction | discriminate].
    + trivial.
  - rewrite String.eqb_neq in Eh.
    destruct (Str.isdigit h), (Str.isdigit a), f; simpl; split;
      try discriminate; try (intros (H & _); discriminate); trivial;
      try (intros (_ & _ & H); exfalso; apply H; auto);
      intros _; repeat split; trivial; intros [H1 H2];
        try contradiction; discriminate.
Qed.

Lemma classify_scores (h a : string) (f : bool) :
  snd (fst (classify h a f)) = h /\ snd (classify h a f) = a.
Proof.
  unfold classify.
  destruct (String.eqb h "--") eqn:Eh; destruct (String.eqb a "--") eqn:Ea; simpl.
  - apply String.eqb_eq in Eh, Ea. subst. destruct f; auto.
  - destruct (Str.isdigit h && Str.isdigit a); auto.
  - destruct (Str.isdigit h && Str.isdigit a); auto.
  - destruct (Str.isdigit h && Str.isdigit a); auto.
Qed.

Lemma classify_cases (h a : string) (f : bool) :
  let s := status_of (classify h a f) in
  s = "forfeit" \/ s = "scheduled" \/ s = "completed" \/ s = "unknown".
Proof.
  unfold classify.
  destruct (String.eqb h "--" && String.eqb a "--"),
           (Str.isdigit h && Str.isdigit a), f; simpl; auto.
Qed.

(** Every field of an appended record, read off its container. *)
Lemma detailed_game_fields (d : option string) (c : node) (g : Game) :
  detailed_game d c = Appended g ->
  game_id g = get_default c "data-id" ""
  /\ home_score g = home_score_text_of c /\ away_score g = away_score_text_of c
  /\ time g = text_or "TBD" (select_one TIME c)
  /\ sport g = text_or "Unknown" (select_one A_SPORT c)
  /\ league g = text_opt (select_one A_LEAGUE c)
  /\ home_record g = fst (records_of c) /\ away_record g = snd (records_of c).
Proof.
  unfold detailed_game.
  destruct (home_team_elem_of c) as [h|]; [|discriminate].
  destruct (away_team_elem_of c) as [a|]; [|discriminate].
  pose proof (classify_scores (home_score_text_of c) (away_score_text_of c)
                (is_forfeit_of c)) as [S1 S2].
  destruct (classify _ _ _) as [[st hs] aw]. simpl in S1, S2. subst.
  destruct (records_of c) as [hr ar].
  intros H. injection H as <-. simpl. repeat split; reflexivity.
Qed.

Lemma simple_game_fields (d : option string) (c : node) (g : Game) :
  simple_game d c = Appended g ->
  game_id g = get_default c "data-id" ""
  /\ home_score g = text_or "--" (select_one SCORE1 c)
  /\ away_score g = text_or "--" (select_one SCORE2 c)
  /\ time g = text_or "TBD" (select_one TIME c)
  /\ sport g = text_or "Unknown" (select_one A_SPORT c)
  /\ league g = text_opt (select_one A_LEAGUE c)
  /\ location g = text_opt (select_one LOCATION_VENUE c)
  /\ home_record g = None /\ away_record g = None.
Proof.
  unfold simple_game.
  destruct (select_one TEAMHOME c) as [h|]; [|discriminate].
  destruct (select_one TEAMAWAY c) as [a|]; [|discriminate].
  intros H. injection H as <-. simpl. repeat split; reflexivity.
Qed.

Lemma is_forfeit_first_muted (c : node) :
  is_forfeit_of c = true
  <-> exists m, select_one SMALL_MUTED c = Some m
                /\ marks_forfeit (Str.lower (get_text m)) = true.
Proof.
  unfold is_forfeit_of, forfeit_text_of.
  destruct (select_one SMALL_MUTED c) as [m|].
  - split; [intros H; now exists m | intros (m' & E & H); now injection E as ->].
  - split; [discriminate | intros (m' & E & _); discriminate].
Qed.

(** The status of a record of the detailed layout: "forfeit" exactly when
    the first muted element of the container holds "forfeit" or "default"
    once lower-cased; "unknown" exactly when the detector did not fire and
    the two score texts are neither both "--" nor both numeric; and always
    one of the four values. *)
Theorem detailed_status_table (d : option string) (c : node) (g : Game) :
  detailed_game d c = Appended g ->
  (status g = "forfeit"
   <-> exists m, select_one SMALL_MUTED c = Some m
                 /\ marks_forfeit (Str.lower (get_text m)) = true)
  /\ (status g = "unknown"
      <-> is_forfeit_of c = false
          /\ ~ (home_score_text_of c = "--" /\ away_score_text_of c = "--")
          /\ ~ (Str.isdigit (home_score_text_of c) = true
                /\ Str.isdigit (away_score_text_of c) = true))
  /\ (status g = "forfeit" \/ status g = "scheduled"
      \/ status g = "completed" \/ status g = "unknown").
Proof.
  intros Hg.
  destruct (detailed_game_appended _ _ _ Hg) as (h & a & _ & _ & _ & _ & Hs & _).
  rewrite Hs. split; [|split].
  - rewrite classify_forfeit_iff. apply is_forfeit_first_muted.
  - apply classify_unknown.
  - apply classify_cases.
Qed.

Lemma detailed_status_table_witness :
  (status Samples.defaulted_record = "forfeit"
   <-> exists m, select_one SMALL_MUTED Samples.defaulted = Some m
                 /\ marks_forfeit (Str.lower (get_text m)) = true)
  /\ (status Samples.defaulted_record = "forfeit"
      \/ status Samples.defaulted_record = "scheduled"
      \/ status Samples.defaulted_record = "completed"
      \/ status Samples.defaulted_record = "unknown").
Proof.
  destruct (detailed_status_table (Some "2/15/2026") Samples.defaulted
              Samples.defaulted_record eq_refl) as (H1 & _ & H3).
  split; [exact H1 | exact H3].
Defined.

(** What a reader of the records of [parse_games_html_with_dates] can rely
    on: a "completed" record has two numeric scores, a "scheduled" record
    has the two scores "--", an "unknown" record has neither, and there is
    no fifth status. *)
Theorem scores_agree_with_status (soup : node) (out : list string) (g : Game) :
  In g (fst (parse_games_html_with_dates soup out)) ->
  (status g = "completed" ->
   Str.isdigit (home_score g) = true /\ Str.isdigit (away_score g) = true)
  /\ (status g = "scheduled" -> home_score g = "--" /\ away_score g = "--")
  /\ (status g = "unknown" ->
      ~ (home_score g = "--" /\ away_score g = "--")
      /\ ~ (Str.isdigit (home_score g) = true /\ Str.isdigit (away_score g) = true))
  /\ (status g = "forfeit" \/ status g = "scheduled"
      \/ status g = "completed" \/ status g = "unknown").
Proof.
  intros Hin. apply with_dates_in in Hin. destruct Hin as (d & c & _ & Hg).
  destruct (detailed_game_appended _ _ _ Hg) as (h & a & _ & _ & _ & _ & Hs & _).
  destruct (detailed_game_fields _ _ _ Hg) as (_ & H1 & H2 & _).
  rewrite Hs, H1, H2. split; [|split; [|split]].
  - intros H. apply classify_completed in H. tauto.
  - intros H. apply classify_scheduled in H. tauto.
  - intros H. apply classify_unknown in H. tauto.
  - apply classify_cases.
Qed.

Lemma scores_agree_with_status_witness :
  Str.isdigit (home_score Samples.played_record) = true
  /\ Str.isdigit (away_score Samples.played_record) = true.
Proof.
  assert (Hin : In Samples.played_record
                   (fst (parse_games_html_with_dates Samples.scenario [])))
    by (simpl; auto).
  destruct (scores_agree_with_status Samples.scenario [] Samples.played_record Hin)
    as (H & _).
  apply H. reflexivity.
Defined.

Lemma simple_status_cases (h a : string) :
  simple_status h a = "scheduled" \/ simple_status h a = "completed"
  \/ simple_status h a = "unknown".
Proof.
  unfold simple_status.
  destruct (String.eqb h "--" || String.eqb a "--"),
           (Str.isdigit h && Str.isdigit a); auto.
Qed.

(** In the records of [parse_games_html] the status is a function of the
    two score fields: "scheduled" exactly when one of them is "--",
    "completed" exactly when both are numeric, never "forfeit"; and the two
    team records stay absent. *)
Theorem plain_status_from_scores
    (soup : node) (date_str : option string) (out : list string) (g : Game) :
  In g (fst (parse_games_html soup date_str out)) ->
  status g = simple_status (home_score g) (away_score g)
  /\ (status g = "scheduled" <-> home_score g = "--" \/ away_score g = "--")
  /\ (status g = "completed"
      <-> Str.isdigit (home_score g) = true /\ Str.isdigit (away_score g) = true)
  /\ (status g = "scheduled" \/ status g = "completed" \/ status g = "unknown")
  /\ home_record g = None /\ away_record g = None.
Proof.
  intros Hin. apply plain_in in Hin. destruct Hin as (c & _ & Hg).
  destruct (simple_game_appended _ _ _ Hg) as (h & a & _ & _ & _ & _ & Hs & _).
  destruct (simple_game_fields _ _ _ Hg) as (_ & H1 & H2 & _ & _ & _ & _ & R1 & R2).
  rewrite Hs, H1, H2.
  split; [reflexivity|]. split; [apply simple_status_scheduled|].
  split; [apply simple_status_completed|]. split; [apply simple_status_cases|].
  split; trivial.
Qed.

Lemma plain_status_from_scores_witness :
  status Samples.partial_plain_record
  = simple_status (home_score Samples.partial_plain_record)
                  (away_score Samples.partial_plain_record)
  /\ (status Samples.partial_plain_record = "scheduled"
      <-> home_score Samples.partial_plain_record = "--"
          \/ away_score Samples.partial_plain_record = "--").
Proof.
  assert (Hin : In Samples.partial_plain_record
                   (fst (parse_games_html Samples.partial_doc None [])))
    by (simpl; auto).
  destruct (plain_status_from_scores Samples.partial_doc None []
              Samples.partial_plain_record Hin) as (H1 & H2 & _).
  split; [exact H1 | exact H2].
Defined.

(** Elements below an element below [n] are below [n]. *)
Lemma in_skipn {A : Type} (x : A) (k : nat) (l : list A) : In x (skipn k l) -> In x l.
Proof.
  intros H. rewrite <- (firstn_skipn k l). apply in_or_app. now right.
Qed.

Lemma descendants_trans (n m x : node) :
  In m (descendants n) -> In x (descendants m) -> In x (descendants n).
Proof.
  intros Hm Hx. apply In_nth_error in Hm. destruct Hm as [i Hi].
  destruct (descendants_below n i m Hi) as [rest Hr].
  apply (in_skipn x (S i)). rewrite Hr. apply in_or_app. now left.
Qed.

Lemma select_in (sel : selector) (n x : node) :
  In x (select sel n) <-> In x (descendants n) /\ matches sel x = true.
Proof. apply filter_In. Qed.

Lemma select_one_in (sel : selector) (n x : node) :
  select_one sel n = Some x -> In x (descendants n) /\ matches sel x = true.
Proof.
  unfold select_one. intros H. apply select_in.
  destruct (select sel n); [discriminate|]. injection H as ->. now left.
Qed.

Lemma select_one_none (sel : selector) (n : node) :
  select_one sel n = None <-> forall x, In x (descendants n) -> matches sel x = false.
Proof.
  unfold select_one. split.
  - intros H x Hx. destruct (matches sel x) eqn:E; trivial.
    assert (Hin : In x (select sel n)) by (apply select_in; now split).
    destruct (select sel n); [destruct Hin | discriminate].
  - intros H. destruct (select sel n) as [|x l] eqn:E; trivial.
    assert (Hin : In x (select sel n)) by (rewrite E; now left).
    apply select_in in Hin. destruct Hin as [Hd Hm]. rewrite (H x Hd) in Hm.
    discriminate.
Qed.

Lemma class_of_match (cls : string) (x : node) :
  matches [[sel_class cls]] x = mem cls (tag_classes x).
Proof.
  unfold matches. destruct x as [s|s|k s|name cs a kids]; simpl; trivial.
  now rewrite andb_true_r, orb_false_r.
Qed.

(** The wrapper-then-fallback lookup finds a team element exactly when one
    with the role class is in the container. *)
Lemma resolve_team_elem_spec (wrapper : selector) (tag cls : string) (c : node) :
  let found := resolve_team_elem wrapper [[sel_type tag; sel_class cls]]
                 [[sel_type tag; sel_class cls]; [sel_class cls]] c in
  (found = None <-> select_one [[sel_class cls]] c = None)
  /\ (forall h, found = Some h ->
                In h (descendants c) /\ mem cls (tag_classes h) = true).
Proof.
  assert (Hfb : forall x, matches [[sel_type tag; sel_class cls]; [sel_class cls]] x
                         = matches [[sel_class cls]] x).
  { intros x. unfold matches. destruct x as [s|s|k s|name cs a kids]; simpl; trivial.
    destruct (String.eqb name tag), (mem cls cs); reflexivity. }
  assert (Hlink : forall x, matches [[sel_type tag; sel_class cls]] x = true ->
                           matches [[sel_class cls]] x = true).
  { intros x. unfold matches. destruct x as [s|s|k s|name cs a kids]; simpl; trivial.
    destruct (String.eqb name tag), (mem cls cs); trivial. }
  assert (Hsome : forall h,
            resolve_team_elem wrapper [[sel_type tag; sel_class cls]]
              [[sel_type tag; sel_class cls]; [sel_class cls]] c = Some h ->
            In h (descendants c) /\ matches [[sel_class cls]] h = true).
  { unfold resolve_team_elem. intros h.
    destruct (select_one wrapper c) as [w|] eqn:Hw.
    - destruct (select_one [[sel_type tag; sel_class cls]] w) as [e|] eqn:He.
      + intros E. injection E as ->.
        apply select_one_in in Hw, He. destruct Hw as [Hw _], He as [He Hm].
        split; [now apply (descendants_trans c w) | now apply Hlink].
      + intros E. apply select_one_in in E. now rewrite Hfb in E.
    - intros E. apply select_one_in in E. now rewrite Hfb in E. }
  split.
  - split.
    + intros Hnone. apply select_one_none. intros x Hx. rewrite <- Hfb.
      revert x Hx. apply select_one_none.
      unfold resolve_team_elem in Hnone.
      destruct (select_one wrapper c) as [w|];
        [destruct (select_one [[sel_type tag; sel_class cls]] w); [discriminate|]|];
        exact Hnone.
    + intros Hnone.
      destruct (resolve_team_elem _ _ _ c) as [h|] eqn:E; trivial.
      destruct (Hsome h eq_refl) as [Hd Hm].
      rewrite select_one_none in Hnone. rewrite (Hnone h Hd) in Hm. discriminate.
  - intros h E. destruct (Hsome h E) as [Hd Hm]. split; trivial.
    now rewrite class_of_match in Hm.
Qed.

(** The team lookup of the detailed layout (wrapper first, role class as
    fallback) finds no element exactly when the container holds no element
    of the role class, so both entry points leave the same containers by
    [continue]; the element it finds lies in the container and carries the
    role class. *)
Theorem team_resolver_agrees_with_role_class (c : node) :
  (home_team_elem_of c = None <-> select_one TEAMHOME c = None)
  /\ (away_team_elem_of c = None <-> select_one TEAMAWAY c = None)
  /\ (forall d d', skipped (detailed_game d c) = skipped (simple_game d' c))
  /\ (forall h, home_team_elem_of c = Some h ->
                In h (descendants c) /\ mem "teamHome" (tag_classes h) = true)
  /\ (forall a, away_team_elem_of c = Some a ->
                In a (descendants c) /\ mem "teamAway" (tag_classes a) = true).
Proof.
  destruct (resolve_team_elem_spec DIV_TEAM_LEFT "a" "teamHome" c) as [Hh Hh'].
  destruct (resolve_team_elem_spec DIV_TEAM_RIGHT "a" "teamAway" c) as [Ha Ha'].
  split; [exact Hh|]. split; [exact Ha|]. split; [|split; [exact Hh' | exact Ha']].
  intros d d'.
  destruct (skipped (detailed_game d c)) eqn:E1; destruct (skipped (simple_game d' c)) eqn:E2;
    trivial.
  - apply detailed_game_skipped in E1.
    assert (H : skipped (simple_game d' c) = true).
    { apply simple_game_skipped. unfold home_team_elem_of, away_team_elem_of in E1.
      tauto. }
    congruence.
  - apply simple_game_skipped in E2.
    assert (H : skipped (detailed_game d c) = true).
    { apply detailed_game_skipped. unfold home_team_elem_of, away_team_elem_of.
      tauto. }
    congruence.
Qed.

Lemma team_resolver_agrees_with_role_class_witness :
  In (Samples.home "Alpha") (descendants Samples.played)
  /\ mem "teamHome" (tag_classes (Samples.home "Alpha")) = true.
Proof.
  destruct (team_resolver_agrees_with_role_class Samples.played)
    as (_ & _ & _ & H & _).
  apply H. reflexivity.
Defined.

Lemma gameday_of_section (s : node) :
  matches DIV_GAMEDAY s = true -> exists day, get s "gameday" = Some day.
Proof.
  unfold matches. destruct s as [t|t|k t|name cs a kids]; simpl; try discriminate.
  destruct (lookup "gameday" a) as [day|].
  - intros _. now exists day.
  - now rewrite !andb_false_r.
Qed.

(** Every record of [parse_games_html_with_dates] comes from a game
    container inside a day section and carries the [gameday] value of that
    section, so its date is never absent; a document without day sections
    gives no record, whatever game containers it holds. *)
Theorem records_come_from_day_sections (soup : node) (out : list string) :
  (forall g, In g (fst (parse_games_html_with_dates soup out)) ->
     exists s c day,
       In s (select DIV_GAMEDAY soup) /\ In c (select DIV_MATCH s)
       /\ get s "gameday" = Some day
       /\ detailed_game (Some day) c = Appended g /\ date g = Some day)
  /\ (select DIV_GAMEDAY soup = [] -> fst (parse_games_html_with_dates soup out) = []).
Proof.
  split; [|apply with_dates_no_sections].
  intros g Hin. apply with_dates_in in Hin. destruct Hin as (d & c & Hin & Hg).
  unfold attempts in Hin. apply in_flat_map in Hin. destruct Hin as (s & Hs & Hin).
  apply in_map_iff in Hin. destruct Hin as (c' & E & Hc). injection E as <- ->.
  assert (Hm : matches DIV_GAMEDAY s = true) by (apply select_in in Hs; tauto).
  destruct (gameday_of_section s Hm) as [day Hday].
  exists s, c, day. rewrite Hday in Hg. repeat split; trivial.
  destruct (detailed_game_appended _ _ _ Hg) as (h & a & _ & _ & _ & _ & _ & _ & Hd).
  exact Hd.
Qed.

Lemma records_come_from_day_sections_witness :
  exists s c day,
    In s (select DIV_GAMEDAY Samples.scenario) /\ In c (select DIV_MATCH s)
    /\ get s "gameday" = Some day
    /\ detailed_game (Some day) c = Appended Samples.played_record
    /\ date Samples.played_record = Some day.
Proof.
  destruct (records_come_from_day_sections Samples.scenario []) as [H _].
  apply H. simpl. auto.
Defined.

(** What the loop over the [.media] blocks can have stored for a role: the
    text of the first muted element of the body of a block whose first team
    link carries the role class, a text that holds "-" and "(". *)
Lemma record_step_source (blocks : list node) (recs : option string * option string)
    (media : node) :
  let from role r :=
    exists b link body elem,
      In b blocks /\ select_one TEAM_LINK b = Some link
      /\ mem role (tag_classes link) = true
      /\ select_one MEDIA_BODY b = Some body
      /\ select_one SMALL_MUTED body = Some elem /\ r = get_text elem
      /\ Str.contains "-" r = true /\ Str.contains "(" r = true in
  In media blocks ->
  ((forall r, fst recs = Some r -> from "teamHome" r)
   /\ (forall r, snd recs = Some r -> from "teamAway" r)) ->
  (forall r, fst (record_step recs media) = Some r -> from "teamHome" r)
  /\ (forall r, snd (record_step recs media) = Some r -> from "teamAway" r).
Proof.
  intros from Hin Hrecs. unfold record_step.
  destruct (select_one TEAM_LINK media) as [team_link|] eqn:Hl; [|exact Hrecs].
  destruct (select_one MEDIA_BODY media) as [media_body|] eqn:Hb; [|exact Hrecs].
  destruct (select_one SMALL_MUTED media_body) as [record_elem|] eqn:He; [|exact Hrecs].
  destruct (Str.contains "-" (get_text record_elem)) eqn:E1; [|exact Hrecs].
  destruct (Str.contains "(" (get_text record_elem)) eqn:E2; [|exact Hrecs].
  cbn [andb].
  destruct (mem "teamHome" (tag_classes team_link)) eqn:Hh.
  - cbn [fst snd]. split; [|apply Hrecs].
    intros r E. injection E as <-.
    now exists media, team_link, media_body, record_elem.
  - destruct (mem "teamAway" (tag_classes team_link)) eqn:Ha; [|exact Hrecs].
    cbn [fst snd]. split; [apply Hrecs|].
    intros r E. injection E as <-.
    now exists media, team_link, media_body, record_elem.
Qed.

Lemma records_of_source (c : node) :
  let from role r :=
    exists b link body elem,
      In b (select DIV_MEDIA c) /\ select_one TEAM_LINK b = Some link
      /\ mem role (tag_classes link) = true
      /\ select_one MEDIA_BODY b = Some body
      /\ select_one SMALL_MUTED body = Some elem /\ r = get_text elem
      /\ Str.contains "-" r = true /\ Str.contains "(" r = true in
  (forall r, fst (records_of c) = Some r -> from "teamHome" r)
  /\ (forall r, snd (records_of c) = Some r -> from "teamAway" r).
Proof.
  intros from. unfold records_of.
  assert (H : forall l recs,
             incl l (select DIV_MEDIA c) ->
             ((forall r, fst recs = Some r -> from "teamHome" r)
              /\ (forall r, snd recs = Some r -> from "teamAway" r)) ->
             (forall r, fst (fold_left record_step l recs) = Some r -> from "teamHome" r)
             /\ (forall r, snd (fold_left record_step l recs) = Some r
                           -> from "teamAway" r)).
  { induction l as [|m l IH]; intros recs Hl Hrecs; [exact Hrecs|].
    cbn [fold_left]. apply IH.
    - intros x Hx. apply Hl. now right.
    - apply (record_step_source (select DIV_MEDIA c)); trivial.
      apply Hl. now left. }
  apply H; [apply incl_refl|]. split; intros r E; discriminate.
Qed.

(** A team record of a record is the text of the first muted element in
    the body of a [.media] block of its container whose first team link
    carries the role class of that side, and it holds both "-" and "(". *)
Theorem team_records_have_record_shape
    (soup : node) (out : list string) (g : Game) (r role : string) :
  In g (fst (parse_games_html_with_dates soup out)) ->
  (role = "teamHome" /\ home_record g = Some r)
  \/ (role = "teamAway" /\ away_record g = Some r) ->
  Str.contains "-" r = true /\ Str.contains "(" r = true
  /\ exists d c b link body elem,
       In (d, c) (attempts soup) /\ detailed_game d c = Appended g
       /\ In b (select DIV_MEDIA c) /\ select_one TEAM_LINK b = Some link
       /\ mem role (tag_classes link) = true
       /\ select_one MEDIA_BODY b = Some body
       /\ select_one SMALL_MUTED body = Some elem /\ r = get_text elem.
Proof.
  intros Hin Hr. apply with_dates_in in Hin. destruct Hin as (d & c & Hin & Hg).
  destruct (detailed_game_fields _ _ _ Hg) as (_ & _ & _ & _ & _ & _ & R1 & R2).
  destruct (records_of_source c) as [Hh Ha].
  assert (H : exists b link body elem,
             In b (select DIV_MEDIA c) /\ select_one TEAM_LINK b = Some link
             /\ mem role (tag_classes link) = true
             /\ select_one MEDIA_BODY b = Some body
             /\ select_one SMALL_MUTED body = Some elem /\ r = get_text elem
             /\ Str.contains "-" r = true /\ Str.contains "(" r = true).
  { destruct Hr as [[-> E]|[-> E]].
    - apply Hh. now rewrite <- R1.
    - apply Ha. now rewrite <- R2. }
  destruct H as (b & link & body & elem & H1 & H2 & H3 & H4 & H5 & H6 & H7 & H8).
  split; [exact H7|]. split; [exact H8|].
  now exists d, c, b, link, body, elem.
Qed.

Lemma team_records_have_record_shape_witness :
  Str.contains "-" "(3-1-0)" = true /\ Str.contains "(" "(3-1-0)" = true
  /\ exists d c b link body elem,
       In (d, c) (attempts Samples.with_records_doc)
       /\ detailed_game d c = Appended Samples.with_records_record
       /\ In b (select DIV_MEDIA c) /\ select_one TEAM_LINK b = Some link
       /\ mem "teamHome" (tag_classes link) = true
       /\ select_one MEDIA_BODY b = Some body
       /\ select_one SMALL_MUTED body = Some elem /\ "(3-1-0)" = get_text elem.
Proof.
  apply (team_records_have_record_shape Samples.with_records_doc []
           Samples.with_records_record "(3-1-0)" "teamHome").
  - simpl. auto.
  - left. split; reflexivity.
Defined.

(** Text extraction. *)

Lemma append_empty_r (s : string) : (s ++ "")%string = s.
Proof. induction s as [|c s IH]; simpl; congruence. Qed.

Lemma concat_cons (x : string) (l : list string) :
  String.concat "" (x :: l) = (x ++ String.concat "" l)%string.
Proof.
  destruct l as [|y l]; simpl; [now rewrite append_empty_r | reflexivity].
Qed.

Lemma lstrip_head (s : string) :
  Str.lstrip s = "" \/ exists c r, Str.lstrip s = String c r /\ Str.isspace c = false.
Proof.
  induction s as [|c s IH]; [now left|].
  cbn [Str.lstrip]. destruct (Str.isspace c) eqn:E; [exact IH|].
  right. now exists c, s.
Qed.

Lemma rstrip_cons (c : ascii) (r : string) :
  Str.rstrip (String c r)
  = match Str.rstrip r with
    | EmptyString => if Str.isspace c then EmptyString else String c EmptyString
    | String c' r' => String c (String c' r')
    end.
Proof. reflexivity. Qed.

Lemma rstrip_idem (s : string) : Str.rstrip (Str.rstrip s) = Str.rstrip s.
Proof.
  induction s as [|c s IH]; [reflexivity|].
  rewrite rstrip_cons. destruct (Str.rstrip s) as [|c' r] eqn:E.
  - destruct (Str.isspace c) eqn:Ec; [reflexivity|].
    rewrite rstrip_cons. cbn [Str.rstrip]. now rewrite Ec.
  - rewrite rstrip_cons. now rewrite IH.
Qed.

Lemma rstrip_head (c : ascii) (r : string) :
  Str.isspace c = false -> exists r', Str.rstrip (String c r) = String c r'.
Proof.
  intros E. rewrite rstrip_cons. destruct (Str.rstrip r) as [|c' r'].
  - rewrite E. now exists "".
  - now exists (String c' r').
Qed.

Lemma rstrip_app (p q : string) :
  q <> "" -> Str.rstrip q = q -> Str.rstrip (p ++ q) = (p ++ q)%string.
Proof.
  intros Hq Hr. induction p as [|c p IH]; [exact Hr|].
  change (String c p ++ q)%string with (String c (p ++ q)).
  rewrite rstrip_cons, IH.
  destruct (p ++ q)%string eqn:E; [|reflexivity].
  destruct p; [now subst | discriminate].
Qed.

(** A text without white space at either end. *)
Lemma strip_trimmed (s : string) :
  let p := Str.strip s in
  (p = "" \/ exists c r, p = String c r /\ Str.isspace c = false) /\ Str.rstrip p = p.
Proof.
  unfold Str.strip. split; [|apply rstrip_idem].
  destruct (lstrip_head s) as [->|(c & r & -> & E)]; [now left|].
  right. destruct (rstrip_head c r E) as [r' ->]. now exists c, r'.
Qed.

Lemma trimmed_app (p q : string) :
  ((p = "" \/ exists c r, p = String c r /\ Str.isspace c = false) /\ Str.rstrip p = p) ->
  ((q = "" \/ exists c r, q = String c r /\ Str.isspace c = false) /\ Str.rstrip q = q) ->
  p <> "" ->
  (((p ++ q)%string = "" \/ exists c r, (p ++ q)%string = String c r
                                       /\ Str.isspace c = false)
   /\ Str.rstrip (p ++ q) = (p ++ q)%string).
Proof.
  intros [[->|(c & r & -> & E)] Hp] [Hq Hq'] Hne; [contradiction|].
  split.
  - right. exists c, (r ++ q)%string. now split.
  - destruct q as [|c' q'] eqn:Eq.
    + now rewrite append_empty_r.
    + apply rstrip_app; [discriminate | exact Hq'].
Qed.

Lemma get_text_trimmed (n : node) :
  (get_text n = "" \/ exists c r, get_text n = String c r /\ Str.isspace c = false)
  /\ Str.rstrip (get_text n) = get_text n.
Proof.
  unfold get_text.
  assert (Hp : forall p, In p (stripped_strings n) ->
                         p <> "" /\ ((p = "" \/ exists c r, p = String c r
                                               /\ Str.isspace c = false)
                                     /\ Str.rstrip p = p)).
  { unfold stripped_strings. intros p Hin. apply in_flat_map in Hin.
    destruct Hin as (d & _ & Hin).
    destruct (interesting (tag_name n) d) as [s|]; [|destruct Hin].
    cbn zeta in Hin. destruct (String.eqb (Str.strip s) "") eqn:E; [destruct Hin|].
    destruct Hin as [<-|[]]. split; [now apply String.eqb_neq | apply strip_trimmed]. }
  induction (stripped_strings n) as [|x l IH].
  - split; [now left | reflexivity].
  - rewrite concat_cons.
    destruct (Hp x (or_introl eq_refl)) as [Hne Hx].
    apply trimmed_app; trivial. apply IH. intros p Hin. apply Hp. now right.
Qed.

Lemma get_text_stripped (n : node) : Str.strip (get_text n) = get_text n.
Proof.
  destruct (get_text_trimmed n) as [[E|(c & r & E & Hc)] Hr]; unfold Str.strip.
  - now rewrite E.
  - assert (Hl : Str.lstrip (get_text n) = get_text n).
    { rewrite E. cbn [Str.lstrip]. now rewrite Hc. }
    now rewrite Hl.
Qed.

Lemma text_or_stripped (default : string) (e : option node) :
  Str.strip default = default -> Str.strip (text_or default e) = text_or default e.
Proof. destruct e; simpl; [intros _; apply get_text_stripped | trivial]. Qed.

(** At both entry points the team names, the scores, the time, the sport
    and the league of a record have no white space at either end. *)
Theorem text_fields_carry_no_outer_white_space
    (soup : node) (date_str : option string) (out : list string) (g : Game) :
  In g (fst (parse_games_html_with_dates soup out))
  \/ In g (fst (parse_games_html soup date_str out)) ->
  Str.strip (home_team g) = home_team g /\ Str.strip (away_team g) = away_team g
  /\ Str.strip (home_score g) = home_score g /\ Str.strip (away_score g) = away_score g
  /\ Str.strip (time g) = time g /\ Str.strip (sport g) = sport g
  /\ (forall l, league g = Some l -> Str.strip l = l).
Proof.
  intros [Hin|Hin].
  - apply with_dates_in in Hin. destruct Hin as (d & c & _ & Hg).
    destruct (detailed_game_appended _ _ _ Hg) as (h & a & _ & _ & -> & -> & _).
    destruct (detailed_game_fields _ _ _ Hg) as (_ & -> & -> & -> & -> & -> & _).
    repeat split; try apply get_text_stripped; try (now apply text_or_stripped).
    intros l E. destruct (select_one A_LEAGUE c); [|discriminate].
    injection E as <-. apply get_text_stripped.
  - apply plain_in in Hin. destruct Hin as (c & _ & Hg).
    destruct (simple_game_appended _ _ _ Hg) as (h & a & _ & _ & -> & -> & _).
    destruct (simple_game_fields _ _ _ Hg) as (_ & -> & -> & -> & -> & -> & _).
    repeat split; try apply get_text_stripped; try (now apply text_or_stripped).
    intros l E. destruct (select_one A_LEAGUE c); [|discriminate].
    injection E as <-. apply get_text_stripped.
Qed.

Lemma text_fields_carry_no_outer_white_space_witness :
  Str.strip (home_team Samples.played_record) = home_team Samples.played_record
  /\ Str.strip (away_team Samples.played_record) = away_team Samples.played_record.
Proof.
  assert (Hin : In Samples.played_record
                   (fst (parse_games_html_with_dates Samples.scenario [])))
    by (simpl; auto).
  destruct (text_fields_carry_no_outer_white_space Samples.scenario None []
              Samples.played_record (or_introl Hin)) as (H1 & H2 & _).
  split; [exact H1 | exact H2].
Defined.

(** The date of a request. *)

Lemma lstrip_zero_cons (c : ascii) (r : string) :
  Str.lstrip_zero (String c r)
  = if Ascii.eqb c "0" then Str.lstrip_zero r else String c r.
Proof. destruct c as [[] [] [] [] [] [] [] []]; reflexivity. Qed.

Lemma replace_cons (c : ascii) (r : string) :
  c <> "/"%char ->
  Str.replace "/0" "/" (String c r) = String c (Str.replace "/0" "/" r).
Proof.
  intros Hc. unfold Str.replace. cbn [Str.replace_from String.prefix].
  destruct (ascii_dec "/" c) as [E|_]; [now subst|reflexivity].
Qed.

Lemma replace_slash_zero (r : string) :
  Str.replace "/0" "/" (String "/" (String "0" r)) = String "/" (Str.replace "/0" "/" r).
Proof. destruct r; reflexivity. Qed.

Lemma replace_slash (y : string) :
  (forall r, y <> String "0" r) ->
  Str.replace "/0" "/" (String "/" y) = String "/" (Str.replace "/0" "/" y).
Proof.
  intros Hy. unfold Str.replace. destruct y as [|c r]; [reflexivity|].
  cbn [Str.replace_from String.prefix].
  destruct (ascii_dec "/" "/") as [_|N]; [|now destruct N].
  destruct (ascii_dec "0" c) as [<-|_]; [now destruct (Hy r)|reflexivity].
Qed.

Lemma digit_not_slash (c : ascii) : ascii_digit c = true -> c <> "/"%char.
Proof. intros H ->. discriminate. Qed.

Lemma replace_digits (y : string) :
  Str.all_chars ascii_digit y = true -> Str.replace "/0" "/" y = y.
Proof.
  induction y as [|c y IH]; [reflexivity|].
  cbn [Str.all_chars]. intros H. apply andb_prop in H. destruct H as [Hc Hy].
  rewrite replace_cons by now apply digit_not_slash. now rewrite IH.
Qed.

Lemma replace_day (d1 d2 : ascii) (y : string) :
  ascii_digit d1 = true -> ascii_digit d2 = true ->
  Str.all_chars ascii_digit y = true -> (forall r, y <> String "0" r) ->
  Str.replace "/0" "/" (String "/" (String d1 (String d2 (String "/" y))))
  = (String "/" (unpad d1 d2) ++ String "/" y)%string.
Proof.
  intros H1 H2 Hy Hy0.
  assert (Htail : Str.replace "/0" "/" (String d2 (String "/" y))
                  = String d2 (String "/" y)).
  { rewrite replace_cons by now apply digit_not_slash.
    now rewrite replace_slash, replace_digits. }
  unfold unpad. destruct (Ascii.eqb d1 "0") eqn:E.
  - apply Ascii.eqb_eq in E. subst d1. now rewrite replace_slash_zero, Htail.
  - apply Ascii.eqb_neq in E. rewrite replace_slash.
    + rewrite replace_cons by now apply digit_not_slash. now rewrite Htail.
    + intros r Hr. injection Hr as Hr _. now apply E.
Qed.

(** The date sent upstream is M/D/YYYY: from the MM/DD/YYYY text of
    [strftime], month and day lose the zero that pads them and the year is
    kept (for a month other than "00" and a year that does not start with
    "0"). *)
Theorem date_str_has_no_zero_padding
    (strftime : Z -> string) (current_date : Z) (m1 m2 d1 d2 : ascii) (y : string) :
  strftime current_date
  = String m1 (String m2 (String "/" (String d1 (String d2 (String "/" y))))) ->
  ascii_digit m1 = true -> ascii_digit m2 = true ->
  ascii_digit d1 = true -> ascii_digit d2 = true ->
  Str.all_chars ascii_digit y = true ->
  (m1 = "0"%char -> m2 <> "0"%char) ->
  (forall r, y <> String "0" r) ->
  date_str_of strftime current_date
  = (unpad m1 m2 ++ String "/" (unpad d1 d2) ++ String "/" y)%string.
Proof.
  intros E M1 M2 D1 D2 Hy Hm Hy0. unfold date_str_of. rewrite E.
  rewrite lstrip_zero_cons. unfold unpad at 1.
  destruct (Ascii.eqb m1 "0") eqn:E1.
  - apply Ascii.eqb_eq in E1. specialize (Hm E1).
    rewrite lstrip_zero_cons. apply Ascii.eqb_neq in Hm. rewrite Hm.
    rewrite replace_cons by now apply digit_not_slash.
    now rewrite replace_day.
  - rewrite !replace_cons by now apply digit_not_slash.
    now rewrite replace_day.
Qed.

Lemma date_str_has_no_zero_padding_witness :
  date_str_of Samples.mdY 5 = "2/15/2026".
Proof.
  apply (date_str_has_no_zero_padding Samples.mdY 5 "0" "2" "1" "5" "2026");
    try reflexivity; discriminate.
Defined.

(** The single-day request and the endpoints. *)

(** [fetch_games_for_date] returns the records [parse_games_html] reads
    from the page, each of them dated with the requested day when that is a
    non-empty string, and no record when the page is missing or the request
    fails. *)
Theorem requested_date_on_every_record
    (BeautifulSoup : string -> node) (post_page : string -> page_response)
    (date_str : string) (out : list string) :
  let result := fst (fetch_games_for_date BeautifulSoup post_page date_str out) in
  (date_str <> "" -> forall g, In g result -> date g = Some date_str)
  /\ (forall html, post_page date_str = PageReplied (Some html) ->
                   result = fst (parse_games_html (BeautifulSoup html) (Some date_str) []))
  /\ (post_page date_str = PageReplied None -> result = [])
  /\ (forall e, post_page date_str = PageFailed e -> result = []).
Proof.
  cbv zeta.
  assert (Hhtml : forall html, post_page date_str = PageReplied (Some html) ->
            fst (fetch_games_for_date BeautifulSoup post_page date_str out)
            = fst (parse_games_html (BeautifulSoup html) (Some date_str) [])).
  { intros html E. unfold fetch_games_for_date. rewrite E.
    destruct (parse_games_html _ _ _) as [gs o] eqn:P. cbn [fst].
    change gs with (fst (gs, o)). rewrite <- P. now rewrite !plain_games. }
  split; [|split; [exact Hhtml|split]].
  - intros Hne g Hg. destruct (post_page date_str) as [e|[html|]] eqn:E.
    + unfold fetch_games_for_date in Hg. rewrite E in Hg. destruct Hg.
    + rewrite (Hhtml html eq_refl) in Hg.
      rewrite (plain_dates _ _ _ _ Hg). apply resolve_date_supplied.
      cbn [truthy]. apply String.eqb_neq in Hne. now rewrite Hne.
    + unfold fetch_games_for_date in Hg. rewrite E in Hg. destruct Hg.
  - intros E. unfold fetch_games_for_date. now rewrite E.
  - intros e E. unfold fetch_games_for_date. now rewrite E.
Qed.

Lemma requested_date_on_every_record_witness :
  date Samples.played_record = Some "2/15/2026".
Proof.
  destruct (requested_date_on_every_record Samples.parser Samples.page_up
              "2/15/2026" []) as (H & _).
  apply H.
  - discriminate.
  - simpl. auto.
Defined.

(** Every response of [get_games] and [refresh_games] counts its own
    games in [total_games], carries a message, and holds no game when it
    reports a failure. *)
Theorem responses_count_their_games
    (BeautifulSoup : string -> node) (post : string -> response)
    (strftime isoformat : Z -> string)
    (load_games : string -> string + list Game)
    (dump : list Game -> nat -> string -> string)
    (write_error : option string) (now : string) (today : Z)
    (file : cache_file) (out : list string) (r : Api.GamesResponse) :
  r = fst (Api.get_games load_games file out)
  \/ r = fst (fst (Api.refresh_games BeautifulSoup post strftime isoformat dump
                     write_error now today file out)) ->
  Api.total_games r = length (Api.games r)
  /\ (Api.success r = false -> Api.games r = [])
  /\ Api.message r <> None.
Proof.
  intros [->| ->].
  - unfold Api.get_games.
    destruct file as [|e|text]; [| |destruct (load_games text)]; cbn;
      repeat split; try discriminate; trivial.
  - unfold Api.refresh_games.
    destruct (fetch_all_games _ _ _ _ _ _) as [gs o].
    destruct write_error; cbn; repeat split; try discriminate; trivial.
Qed.

Lemma responses_count_their_games_witness :
  Api.total_games (fst (Api.get_games Samples.load_scenario (Text "{...}") []))
  = length (Api.games (fst (Api.get_games Samples.load_scenario (Text "{...}") [])))
  /\ Api.games (fst (Api.get_games Samples.load_scenario Absent [])) = [].
Proof.
  split.
  - apply (responses_count_their_games Samples.parser Samples.down Samples.mdY
             Samples.iso Samples.load_scenario Samples.dump_any None "now" 0
             (Text "{...}") []).
    left. reflexivity.
  - apply (responses_count_their_games Samples.parser Samples.down Samples.mdY
             Samples.iso Samples.load_scenario Samples.dump_any None "now" 0
             Absent []).
    + left. reflexivity.
    + reflexivity.
Defined.

(** The status rules of the two entry points give the same status exactly
    when no forfeit was detected and the two score texts are both "--" or
    both different from "--". *)
Theorem classifiers_differ_on_forfeit_and_one_sided_scores (h a : string) (f : bool) :
  status_of (classify h a f) = simple_status h a
  <-> f = false /\ (h = "--" <-> a = "--").
Proof.
  unfold classify, simple_status.
  destruct (String.eqb h "--") eqn:Eh; destruct (String.eqb a "--") eqn:Ea;
    [apply String.eqb_eq in Eh, Ea | apply String.eqb_eq in Eh; apply String.eqb_neq in Ea
     | apply String.eqb_neq in Eh; apply String.eqb_eq in Ea
     | apply String.eqb_neq in Eh, Ea]; cbn [andb orb].
  - destruct f; cbn; split; try discriminate; try tauto. intros [H _]. discriminate.
  - subst h. cbn. destruct f; cbn; split; try discriminate;
      intros [H1 H2]; try discriminate. exfalso. apply Ea. now apply H2.
  - subst a. rewrite andb_false_r. destruct f; cbn; split; try discriminate;
      intros [H1 H2]; try discriminate. exfalso. apply Eh. now apply H2.
  - destruct (Str.isdigit h && Str.isdigit a), f; cbn; split; try discriminate;
      try (intros [H _]; discriminate); intros _; split; trivial; tauto.
Qed.

